(** * car_scraper.py: the Blocket fetcher, the Kafka publisher and the driver

    A shallow embedding of [src/car_scraper.py].  Python values are an
    inductive type, dictionaries are insertion-ordered association lists,
    exceptions are an error result, and the calls to the outside (the
    marketplace API, the Kafka client, the clock, [time.sleep]) are
    effects of a small state-and-exception monad whose state records a
    chronological trace of those calls.  The answers of the outside are
    read from an environment [Env], so that every theorem quantifies over
    all behaviours of the marketplace and of the broker. *)

From Stdlib Require Import List ZArith String Ascii Bool Lia QArith DecimalString.
Import ListNotations.
Local Open Scope string_scope.
Local Open Scope Z_scope.

Set Implicit Arguments.
Set Warnings "-register-all".

(** ** Exceptions and results *)

(** The exception classes the program can meet.  All of them derive from
    [Exception]; only [KafkaError] is an instance of [kafka.errors.KafkaError]. *)
Inductive exn : Type :=
| KafkaError
| AttributeError
| TypeError
| KeyError
| IndexError
| ZeroDivisionError
| OverflowError
| ConnectionError.

Definition isinstance_KafkaError (e : exn) : bool :=
  match e with
  | KafkaError => true
  | _ => false
  end.

Inductive result (A : Type) : Type :=
| Ok (a : A)
| Raise (e : exn).

Arguments Ok {A} a.
Arguments Raise {A} e.

Definition is_Ok {A} (r : result A) : bool :=
  match r with
  | Ok _ => true
  | Raise _ => false
  end.

(** ** Python values *)

(** [VObj] is an object of a class this program knows nothing about: it is
    truthy, has no [get] method, is neither subscriptable nor iterable, and
    [json.dumps] has no encoding for it. *)
Inductive pyval : Type :=
| VNone
| VBool (b : bool)
| VInt (z : Z)
| VStr (s : string)
| VList (l : list pyval)
| VDict (d : list (string * pyval))
| VObj (cls : string).

(** A Python [dict] with string keys, in insertion order. *)
Definition dict : Type := list (string * pyval).

(** [bool(v)]. *)
Definition py_truthy (v : pyval) : bool :=
  match v with
  | VNone => false
  | VBool b => b
  | VInt z => negb (z =? 0)
  | VStr s => negb (s =? EmptyString)%string
  | VList l => match l with [] => false | _ :: _ => true end
  | VDict d => match d with [] => false | _ :: _ => true end
  | VObj _ => true
  end.

(** [k in d] and [d[k]] as one lookup. *)
Fixpoint dict_lookup (d : dict) (k : string) : option pyval :=
  match d with
  | [] => None
  | (k', v) :: d' => if (k' =? k)%string then Some v else dict_lookup d' k
  end.

(** [d.get(k, default)]. *)
Definition dict_get (d : dict) (k : string) (default : pyval) : pyval :=
  match dict_lookup d k with
  | Some v => v
  | None => default
  end.

(** [d[k]], which raises [KeyError] on a missing key. *)
Definition dict_getitem (d : dict) (k : string) : result pyval :=
  match dict_lookup d k with
  | Some v => Ok v
  | None => Raise KeyError
  end.

(** [d[k] = v]: an existing key keeps its place, a new one goes last. *)
Fixpoint dict_set (d : dict) (k : string) (v : pyval) : dict :=
  match d with
  | [] => [(k, v)]
  | (k', v') :: d' =>
      if (k' =? k)%string then (k', v) :: d' else (k', v') :: dict_set d' k v
  end.

(** [v.get(k)] on an arbitrary value: only a dict has the method. *)
Definition py_get (v : pyval) (k : string) : result pyval :=
  match v with
  | VDict d => Ok (dict_get d k VNone)
  | _ => Raise AttributeError
  end.

(** [v.get(k, default)]. *)
Definition py_get_default (v : pyval) (k : string) (default : pyval) : result pyval :=
  match v with
  | VDict d => Ok (dict_get d k default)
  | _ => Raise AttributeError
  end.

(** [v[0]]. *)
Definition py_index0 (v : pyval) : result pyval :=
  match v with
  | VList (x :: _) => Ok x
  | VList [] => Raise IndexError
  | VStr (String c _) => Ok (VStr (String c EmptyString))
  | VStr EmptyString => Raise IndexError
  | VDict _ => Raise KeyError
  | _ => Raise TypeError
  end.

Fixpoint string_chars (s : string) : list pyval :=
  match s with
  | EmptyString => []
  | String c s' => VStr (String c EmptyString) :: string_chars s'
  end.

(** [iter(v)], run to the end. *)
Definition py_iter (v : pyval) : result (list pyval) :=
  match v with
  | VList l => Ok l
  | VStr s => Ok (string_chars s)
  | VDict d => Ok (map (fun kv => VStr (fst kv)) d)
  | _ => Raise TypeError
  end.

(** [str(n)] for an [int]. *)
Definition str_int (n : Z) : string := NilZero.string_of_int (Z.to_int n).

(** The values whose text [str] and a format field spell out alike and
    that this file writes in full: [None], a [bool], an [int] and a
    [str]. *)
Inductive scalar : Type :=
| SNone
| SBool (b : bool)
| SInt (z : Z)
| SStr (s : string).

(** [str(v)], which is also what [f"{v}"] puts in the place of [v]. *)
Definition py_str (v : scalar) : string :=
  match v with
  | SNone => "None"
  | SBool true => "True"
  | SBool false => "False"
  | SInt z => str_int z
  | SStr s => s
  end.

(** Whether [json.dumps] accepts the value ([TypeError] otherwise). *)
Fixpoint json_serializable (v : pyval) : bool :=
  match v with
  | VNone | VBool _ | VInt _ | VStr _ => true
  | VList l => forallb json_serializable l
  | VDict d => forallb (fun kv => json_serializable (snd kv)) d
  | VObj _ => false
  end.

(** ** The marketplace's raw ads *)

(** The attributes of an ad object that the program reads.  [None] is an
    attribute the object does not have ([hasattr] is false).  [ad_id] is
    the [int] that [CarAd(ad_id)] takes, or the [None], [bool] or [str] an
    answer of the marketplace holds in its place. *)
Record RawAd : Type := {
  ad_id : option scalar;
  subject : option pyval;
  body : option pyval;
  price : option pyval;
  year : option pyval;
  mileage : option pyval;
  location : option pyval;
  images : option pyval;
  list_time : option pyval;
  make : option pyval;
  model : option pyval;
  fuel_type : option pyval;
  transmission : option pyval;
  body_type : option pyval;
  color : option pyval;
  engine_power : option pyval
}.

(** [hasattr(ad, a)] and [getattr(ad, a, default)], for an attribute read
    as one of the projections above. *)
Definition hasattr (a : option pyval) : bool :=
  match a with Some _ => true | None => false end.

Definition getattr (a : option pyval) (default : pyval) : pyval :=
  match a with Some v => v | None => default end.

(** [ad.a], which raises [AttributeError] when the attribute is missing. *)
Definition attr {A} (a : option A) : result A :=
  match a with Some v => Ok v | None => Raise AttributeError end.

(** The members of the [blocket_api] enumerations that the program names. *)
Inductive Location : Type := STOCKHOLM | UPPSALA | GOTEBORG.
Inductive CarSortOrder : Type := PRICE_ASC | LATEST.

(** The keyword arguments of [api.search_car]. *)
Record SearchArgs : Type := {
  sa_query : option string;
  sa_locations : list Location;
  sa_price_from : option Z;
  sa_price_to : option Z;
  sa_year_from : option Z;
  sa_year_to : option Z;
  sa_mileage_from : option Z;
  sa_mileage_to : option Z;
  sa_sort_order : CarSortOrder
}.

(** ** The Kafka client *)

(** What the client hands to the broker: the topic, the serialized key
    ([None] is a message without key) and the value.  Text is kept as the
    [string] of its UTF-8 bytes, so [encode('utf-8')] changes nothing; the
    JSON text of the value is not spelled out, the value stands for it. *)
Record message : Type := {
  msg_topic : string;
  msg_key : option string;
  msg_value : dict
}.

(** ** The outside world *)

(** One entry per call that leaves the program. *)
Inductive event : Type :=
| EvConnect (servers : list string)
| EvSleep (seconds : Z)
| EvSearch (args : SearchArgs)
| EvGetAd (id : Z)
| EvSend (m : message) (failure : option exn)
| EvFlush
| EvClose
| EvDryRun (count : nat)
| EvAveragePrice (avg : Q)
| EvYearRange (lo hi : pyval).

(** The answers of the outside.  Each is indexed by how many calls of its
    kind came before, so any sequence of answers can be given.
    - [api_search_car], [api_get_ad]: the marketplace returns ads or raises;
    - [kafka_connect]: [KafkaProducer(...)] returns ([None]) or raises;
    - [kafka_deliver]: the broker acknowledges the message within the wait
      of [future.get(timeout=10)] ([None]), or [send] or [get] raises;
    - [utcnow]: [datetime.utcnow().isoformat()].
    [flush] and [close] of the client do not fail. *)
Record Env : Type := {
  api_search_car : nat -> SearchArgs -> result (list RawAd);
  api_get_ad : nat -> Z -> result RawAd;
  kafka_connect : nat -> option exn;
  kafka_deliver : nat -> message -> option exn;
  utcnow : nat -> string
}.

Record world : Type := {
  n_api : nat;
  n_connect : nat;
  n_deliver : nat;
  n_clock : nat;
  trace : list event
}.

Definition world0 : world :=
  {| n_api := 0; n_connect := 0; n_deliver := 0; n_clock := 0; trace := [] |}.

Definition emit (e : event) (w : world) : world :=
  {| n_api := n_api w; n_connect := n_connect w; n_deliver := n_deliver w;
     n_clock := n_clock w; trace := trace w ++ [e] |}.

(** ** A state-and-exception monad *)

Definition M (A : Type) : Type := world -> result A * world.

Definition ret {A} (a : A) : M A := fun w => (Ok a, w).

Definition raise {A} (e : exn) : M A := fun w => (Raise e, w).

Definition bind {A B} (c : M A) (k : A -> M B) : M B :=
  fun w =>
    match c w with
    | (Ok a, w') => k a w'
    | (Raise e, w') => (Raise e, w')
    end.

(** A pure computation that may raise. *)
Definition lift {A} (r : result A) : M A := fun w => (r, w).

(** [try: body  except <class> as e: handler e]. *)
Definition try_except {A} (body : M A) (class : exn -> bool) (handler : exn -> M A) : M A :=
  fun w =>
    match body w with
    | (Ok a, w') => (Ok a, w')
    | (Raise e, w') => if class e then handler e w' else (Raise e, w')
    end.

(** Every modelled exception is an [Exception]. *)
Definition isinstance_Exception (e : exn) : bool := true.

Declare Scope monad_scope.
Delimit Scope monad_scope with monad.
Notation "x <- c ;; k" := (bind c (fun x => k))
  (at level 61, c at next level, right associativity) : monad_scope.
Notation "c ;; k" := (bind c (fun _ => k))
  (at level 61, right associativity) : monad_scope.
Local Open Scope monad_scope.

Definition log_event (e : event) : M unit := fun w => (Ok tt, emit e w).

(** [time.sleep(seconds)]. *)
Definition sleep (seconds : Z) : M unit := log_event (EvSleep seconds).

Section Program.

(** The outside answers are fixed for the whole run. *)
Variable env : Env.

(** [datetime.utcnow().isoformat()]. *)
Definition utcnow_isoformat : M string :=
  fun w =>
    (Ok (utcnow env (n_clock w)),
     {| n_api := n_api w; n_connect := n_connect w; n_deliver := n_deliver w;
        n_clock := S (n_clock w); trace := trace w |}).

(** [self.api.search_car(...)]. *)
Definition search_car (args : SearchArgs) : M (list RawAd) :=
  fun w =>
    (api_search_car env (n_api w) args,
     {| n_api := S (n_api w); n_connect := n_connect w; n_deliver := n_deliver w;
        n_clock := n_clock w; trace := trace w ++ [EvSearch args] |}).

(** [self.api.get_ad(CarAd(ad_id))]. *)
Definition get_ad (id : Z) : M RawAd :=
  fun w =>
    (api_get_ad env (n_api w) id,
     {| n_api := S (n_api w); n_connect := n_connect w; n_deliver := n_deliver w;
        n_clock := n_clock w; trace := trace w ++ [EvGetAd id] |}).

(** ** class BlocketCarScraper *)

(** [_extract_location], lines 187-191. *)
Definition _extract_location (ad : RawAd) : result pyval :=
  if hasattr (location ad) && py_truthy (getattr (location ad) VNone)
  then py_get_default (getattr (location ad) VNone) "name" (VStr "Unknown")
  else Ok (VStr "Unknown").

(** [_extract_image], lines 193-197. *)
Definition _extract_image (ad : RawAd) : result pyval :=
  if hasattr (images ad) && py_truthy (getattr (images ad) VNone)
  then
    if py_truthy (getattr (images ad) VNone)
    then match py_index0 (getattr (images ad) VNone) with
         | Ok img => py_get img "url"
         | Raise e => Raise e
         end
    else Ok VNone
  else Ok VNone.

(** The comprehension [[img.get('url') for img in imgs if img.get('url')]]. *)
Fixpoint image_urls (imgs : list pyval) : result (list pyval) :=
  match imgs with
  | [] => Ok []
  | img :: rest =>
      match py_get img "url" with
      | Raise e => Raise e
      | Ok c =>
          if py_truthy c
          then match py_get img "url" with
               | Raise e => Raise e
               | Ok u =>
                   match image_urls rest with
                   | Ok us => Ok (u :: us)
                   | Raise e => Raise e
                   end
               end
          else image_urls rest
      end
  end.

(** [_extract_all_images], lines 199-203. *)
Definition _extract_all_images (ad : RawAd) : result pyval :=
  if hasattr (images ad) && py_truthy (getattr (images ad) VNone)
  then match py_iter (getattr (images ad) VNone) with
       | Raise e => Raise e
       | Ok imgs =>
           match image_urls imgs with
           | Ok us => Ok (VList us)
           | Raise e => Raise e
           end
       end
  else Ok (VList []).

(** [if hasattr(ad, a): listing[k] = ad.a]. *)
Definition set_if_hasattr (listing : dict) (k : string) (a : option pyval) : dict :=
  match a with
  | Some v => dict_set listing k v
  | None => listing
  end.

(** The expression
    [getattr(ad, 'price', {}).get('value') if hasattr(ad, 'price') else None]. *)
Definition price_value (ad : RawAd) : result pyval :=
  if hasattr (price ad)
  then py_get (getattr (price ad) (VDict [])) "value"
  else Ok VNone.

(** The body of the [try] of [_parse_ad], lines 116-140.  The entries of
    the dictionary display are evaluated in the order they are written. *)
Definition parse_ad_body (ad : RawAd) : M dict :=
  id <- lift (attr (ad_id ad)) ;;
  p <- lift (price_value ad) ;;
  loc <- lift (_extract_location ad) ;;
  id' <- lift (attr (ad_id ad)) ;;
  img <- lift (_extract_image ad) ;;
  now <- utcnow_isoformat ;;
  let listing : dict :=
    [ ("listing_id", VStr (py_str id));
      ("title", getattr (subject ad) (VStr "Unknown"));
      ("price", p);
      ("year", getattr (year ad) VNone);
      ("mileage", getattr (mileage ad) VNone);
      ("location", loc);
      ("url", VStr ("https://www.blocket.se/" ++ py_str id'));
      ("image_url", img);
      ("scraped_at", VStr now);
      ("source", VStr "blocket");
      ("category", VStr "car") ] in
  let listing := set_if_hasattr listing "make" (make ad) in
  let listing := set_if_hasattr listing "model" (model ad) in
  let listing := set_if_hasattr listing "fuel_type" (fuel_type ad) in
  let listing := set_if_hasattr listing "transmission" (transmission ad) in
  ret listing.

(** [_parse_ad], lines 113-144: [None] is Python's [None]. *)
Definition _parse_ad (ad : RawAd) : M (option dict) :=
  try_except
    (listing <- parse_ad_body ad ;; ret (Some listing))
    isinstance_Exception
    (fun _ => ret None).

(** The body of the [try] of [_parse_ad_details], lines 149-181. *)
Definition parse_ad_details_body (ad_details : RawAd) : M dict :=
  id <- lift (attr (ad_id ad_details)) ;;
  p <- lift (price_value ad_details) ;;
  loc <- lift (_extract_location ad_details) ;;
  id' <- lift (attr (ad_id ad_details)) ;;
  imgs <- lift (_extract_all_images ad_details) ;;
  now <- utcnow_isoformat ;;
  let details : dict :=
    [ ("listing_id", VStr (py_str id));
      ("title", getattr (subject ad_details) (VStr "Unknown"));
      ("description", getattr (body ad_details) (VStr EmptyString));
      ("price", p);
      ("year", getattr (year ad_details) VNone);
      ("mileage", getattr (mileage ad_details) VNone);
      ("location", loc);
      ("url", VStr ("https://www.blocket.se/" ++ py_str id'));
      ("images", imgs);
      ("posted_date", getattr (list_time ad_details) VNone);
      ("scraped_at", VStr now);
      ("source", VStr "blocket");
      ("category", VStr "car") ] in
  let details := set_if_hasattr details "make" (make ad_details) in
  let details := set_if_hasattr details "model" (model ad_details) in
  let details := set_if_hasattr details "fuel_type" (fuel_type ad_details) in
  let details := set_if_hasattr details "transmission" (transmission ad_details) in
  let details := set_if_hasattr details "body_type" (body_type ad_details) in
  let details := set_if_hasattr details "color" (color ad_details) in
  let details := set_if_hasattr details "engine_power" (engine_power ad_details) in
  ret details.

(** [_parse_ad_details], lines 146-185. *)
Definition _parse_ad_details (ad_details : RawAd) : M (option dict) :=
  try_except
    (details <- parse_ad_details_body ad_details ;; ret (Some details))
    isinstance_Exception
    (fun _ => ret None).

(** The keyword arguments of [search_cars], lines 38-50. *)
Record search_kwargs : Type := {
  query : option string;
  locations : option (list Location);
  price_from : option Z;
  price_to : option Z;
  year_from : option Z;
  year_to : option Z;
  mileage_from : option Z;
  mileage_to : option Z;
  sort_order : CarSortOrder;
  max_results : Z
}.

(** The defaults of the signature. *)
Definition search_defaults : search_kwargs :=
  {| query := None; locations := None; price_from := None; price_to := None;
     year_from := None; year_to := None; mileage_from := None; mileage_to := None;
     sort_order := PRICE_ASC; max_results := 100 |}.

(** [locations or [Location.STOCKHOLM]]. *)
Definition locations_or_default (l : option (list Location)) : list Location :=
  match l with
  | Some (x :: xs) => x :: xs
  | _ => [STOCKHOLM]
  end.

Definition search_args (kw : search_kwargs) : SearchArgs :=
  {| sa_query := query kw;
     sa_locations := locations_or_default (locations kw);
     sa_price_from := price_from kw;
     sa_price_to := price_to kw;
     sa_year_from := year_from kw;
     sa_year_to := year_to kw;
     sa_mileage_from := mileage_from kw;
     sa_mileage_to := mileage_to kw;
     sa_sort_order := sort_order kw |}.

(** [if listing:] on what [_parse_ad] returned. *)
Definition listing_truthy (listing : option dict) : bool :=
  match listing with
  | Some d => py_truthy (VDict d)
  | None => false
  end.

(** The loop of lines 84-94, from index [idx] on. *)
Fixpoint search_loop (results : list RawAd) (idx : Z) (max_results : Z)
    (listings : list dict) : M (list dict) :=
  match results with
  | [] => ret listings
  | ad :: rest =>
      if idx >=? max_results then ret listings
      else
        listings' <-
          try_except
            (listing <- _parse_ad ad ;;
             ret (match listing with
                  | Some d => if listing_truthy listing then (listings ++ [d])%list else listings
                  | None => listings
                  end))
            isinstance_Exception
            (fun _ => ret listings) ;;
        search_loop rest (idx + 1) max_results listings'
  end.

(** [search_cars], lines 66-101. *)
Definition search_cars (kw : search_kwargs) : M (list dict) :=
  try_except
    (results <- search_car (search_args kw) ;;
     search_loop results 0 (max_results kw) [])
    isinstance_Exception
    (fun _ => ret []).

(** [get_ad_details], lines 103-111. *)
Definition get_ad_details (id : Z) : M (option dict) :=
  try_except
    (ad_details <- get_ad id ;; _parse_ad_details ad_details)
    isinstance_Exception
    (fun _ => ret None).

(** ** class CarDataKafkaProducer *)

(** A connected [KafkaProducer].  Its configuration is the one written in
    [_connect]: the two serializers below, [acks='all'], [retries=3] and
    one request in flight. *)
Record KafkaProducer : Type := {
  kp_bootstrap_servers : list string
}.

(** [key_serializer], line 223: [k.encode('utf-8') if k else None]. *)
Definition key_serializer (k : pyval) : result (option string) :=
  if py_truthy k
  then match k with
       | VStr s => Ok (Some s)
       | _ => Raise AttributeError
       end
  else Ok None.

(** [value_serializer], line 222: [json.dumps(v).encode('utf-8')]. *)
Definition value_serializer (v : dict) : result dict :=
  if json_serializable (VDict v) then Ok v else Raise TypeError.

(** The object [CarDataKafkaProducer]: its three attributes. *)
Record CarDataKafkaProducer : Type := {
  bootstrap_servers : list string;
  topic : string;
  producer : option KafkaProducer
}.

(** [KafkaProducer(bootstrap_servers=..., ...)], lines 220-227. *)
Definition KafkaProducer_new (servers : list string) : M KafkaProducer :=
  fun w =>
    let w' := {| n_api := n_api w; n_connect := S (n_connect w);
                 n_deliver := n_deliver w; n_clock := n_clock w;
                 trace := trace w ++ [EvConnect servers] |} in
    match kafka_connect env (n_connect w) with
    | None => (Ok {| kp_bootstrap_servers := servers |}, w')
    | Some e => (Raise e, w')
    end.

(** The loop of [_connect], lines 218-235, over the attempts left. *)
Fixpoint connect_loop (self : CarDataKafkaProducer) (attempts : list nat)
    (max_retries : nat) : M CarDataKafkaProducer :=
  match attempts with
  | [] => ret self
  | attempt :: rest =>
      connected <-
        try_except
          (p <- KafkaProducer_new (bootstrap_servers self) ;;
           ret (Some {| bootstrap_servers := bootstrap_servers self;
                        topic := topic self;
                        producer := Some p |}))
          isinstance_KafkaError
          (fun e =>
             if (attempt <? max_retries - 1)%nat
             then sleep 5 ;; ret None
             else raise e) ;;
      match connected with
      | Some self' => ret self'
      | None => connect_loop self rest max_retries
      end
  end.

(** [_connect], lines 215-235. *)
Definition _connect (self : CarDataKafkaProducer) : M CarDataKafkaProducer :=
  let max_retries := 3%nat in
  connect_loop self (seq 0 max_retries) max_retries.

(** [bootstrap_servers or ['localhost:9092']]. *)
Definition servers_or_default (servers : option (list string)) : list string :=
  match servers with
  | Some (x :: xs) => x :: xs
  | _ => ["localhost:9092"]
  end.

(** [__init__], lines 209-213. *)
Definition CarDataKafkaProducer_init (servers : option (list string))
    (topic_name : string) : M CarDataKafkaProducer :=
  let self :=
    {| bootstrap_servers := servers_or_default servers;
       topic := topic_name;
       producer := None |} in
  _connect self.

(** The pending delivery that [producer.send] returns. *)
Record Future : Type := {
  fut_failure : option exn
}.

(** [self.producer.send(topic, key=key, value=value)]: the client runs the
    key serializer and then the value serializer, whose exceptions leave
    [send] as they are, and hands the message to the broker. *)
Definition KafkaProducer_send (p : KafkaProducer) (topic_name : string)
    (key : pyval) (value : dict) : M Future :=
  k <- lift (key_serializer key) ;;
  v <- lift (value_serializer value) ;;
  fun w =>
    let m := {| msg_topic := topic_name; msg_key := k; msg_value := v |} in
    let outcome := kafka_deliver env (n_deliver w) m in
    (Ok {| fut_failure := outcome |},
     {| n_api := n_api w; n_connect := n_connect w; n_deliver := S (n_deliver w);
        n_clock := n_clock w; trace := trace w ++ [EvSend m outcome] |}).

(** [future.get(timeout=10)]. *)
Definition Future_get (f : Future) : M unit :=
  match fut_failure f with
  | None => ret tt
  | Some e => raise e
  end.

(** [send_listing], lines 237-257. *)
Definition send_listing (self : CarDataKafkaProducer) (listing : dict) : M bool :=
  try_except
    (let key := dict_get listing "listing_id" (VStr "unknown") in
     p <- lift (attr (producer self)) ;;
     future <- KafkaProducer_send p (topic self) key listing ;;
     Future_get future ;;
     ret true)
    isinstance_KafkaError
    (fun _ => ret false).

(** The loop of [send_batch], lines 262-264. *)
Fixpoint send_batch_loop (self : CarDataKafkaProducer) (listings : list dict)
    (success_count : Z) : M Z :=
  match listings with
  | [] => ret success_count
  | listing :: rest =>
      sent <- send_listing self listing ;;
      send_batch_loop self rest (if sent then success_count + 1 else success_count)
  end.

(** [send_batch], lines 259-268. *)
Definition send_batch (self : CarDataKafkaProducer) (listings : list dict) : M Z :=
  success_count <- send_batch_loop self listings 0 ;;
  _ <- lift (attr (producer self)) ;;
  log_event EvFlush ;;
  ret success_count.

(** [close], lines 270-274. *)
Definition close (self : CarDataKafkaProducer) : M unit :=
  match producer self with
  | Some _ => log_event EvClose
  | None => ret tt
  end.

(** ** main *)

(** An [int] operand: [bool] is a subclass of [int]. *)
Definition as_int (v : pyval) : option Z :=
  match v with
  | VInt z => Some z
  | VBool b => Some (if b then 1 else 0)
  | _ => None
  end.

(** [acc + v] for the [int] accumulator of [sum]. *)
Definition py_add (acc : Z) (v : pyval) : result Z :=
  match as_int v with
  | Some z => Ok (acc + z)
  | None => Raise TypeError
  end.

(** [a == b].  Numbers compare by value, strings and lists entry by
    entry, dictionaries by their entries whatever the order; two objects
    of unknown classes are two different objects. *)
Fixpoint py_eq (a b : pyval) {struct a} : bool :=
  match a, b with
  | VNone, VNone => true
  | VStr s, VStr t => (s =? t)%string
  | VList l, VList m =>
      (fix eq_list (l m : list pyval) {struct l} : bool :=
         match l, m with
         | [], [] => true
         | x :: l', y :: m' => py_eq x y && eq_list l' m'
         | _, _ => false
         end) l m
  | VDict d, VDict d' =>
      (List.length d =? List.length d')%nat
      && (fix sub_dict (d : list (string * pyval)) {struct d} : bool :=
            match d with
            | [] => true
            | (k, v) :: rest =>
                match dict_lookup d' k with
                | Some v' => py_eq v v'
                | None => false
                end && sub_dict rest
            end) d
  | _, _ =>
      match as_int a, as_int b with
      | Some x, Some y => x =? y
      | _, _ => false
      end
  end.

(** [a < b]: numbers by value, strings and lists lexicographically, a
    list being decided by its first entry that differs from the other
    list's; values of other types, or of different types, are not
    ordered. *)
Fixpoint py_lt (a b : pyval) {struct a} : result bool :=
  match a, b with
  | VStr s, VStr t => Ok (String.ltb s t)
  | VList l, VList m =>
      (fix lt_list (l m : list pyval) {struct l} : result bool :=
         match l, m with
         | [], [] => Ok false
         | [], _ :: _ => Ok true
         | _ :: _, [] => Ok false
         | x :: l', y :: m' => if py_eq x y then lt_list l' m' else py_lt x y
         end) l m
  | _, _ =>
      match as_int a, as_int b with
      | Some x, Some y => Ok (x <? y)
      | _, _ => Raise TypeError
      end
  end.

(** [l.get('price')] is truthy. *)
Definition has_price (l : dict) : bool := py_truthy (dict_get l "price" VNone).

(** [l.get('year')] is truthy. *)
Definition has_year (l : dict) : bool := py_truthy (dict_get l "year" VNone).

(** [sum(l['price'] for l in all_listings if l.get('price'))], from the
    running total [acc]. *)
Fixpoint sum_prices (all_listings : list dict) (acc : Z) : result Z :=
  match all_listings with
  | [] => Ok acc
  | l :: rest =>
      if has_price l
      then match dict_getitem l "price" with
           | Raise e => Raise e
           | Ok v =>
               match py_add acc v with
               | Raise e => Raise e
               | Ok acc' => sum_prices rest acc'
               end
           end
      else sum_prices rest acc
  end.

(** [len([l for l in all_listings if l.get('price')])]. *)
Definition count_prices (all_listings : list dict) : nat :=
  List.length (filter has_price all_listings).

(** [n / d] rounded to the nearest integer, a tie going to the even one;
    [n] is not negative and [d] is positive. *)
Definition round_half_even (n d : Z) : Z :=
  let q := n / d in
  match 2 * (n mod d) ?= d with
  | Lt => q
  | Gt => q + 1
  | Eq => if Z.even q then q else q + 1
  end.

(** The float that is [a / b] for two [int]s, [b] positive: the binary64
    number nearest to the exact quotient, a tie going to the even
    mantissa, given here as the rational it is; [OverflowError] when that
    number would be [2 ^ 1024] or more.  The mantissa has 53 bits at the
    exponent [shift], which does not go below -1074. *)
Definition binary64_quotient (a : Z) (b : positive) : result Q :=
  let n := Z.abs a in
  let d := Z.pos b in
  if n =? 0 then Ok (0 # 1)
  else
    let e0 := Z.log2 n - Z.log2 d in
    let k := if n * 2 ^ Z.max 0 (- e0) <? d * 2 ^ Z.max 0 e0 then e0 - 1 else e0 in
    let shift := Z.max (k - 52) (-1074) in
    let m := round_half_even (n * 2 ^ Z.max 0 (- shift)) (d * 2 ^ Z.max 0 shift) in
    if (0 <=? shift) && (2 ^ 1024 <=? m * 2 ^ shift)
    then Raise OverflowError
    else if 0 <=? shift
         then Ok ((Z.sgn a * m * 2 ^ shift) # 1)
         else Ok (Qred ((Z.sgn a * m) # Z.to_pos (2 ^ (- shift)))).

(** [total / count] on the [int] a sum of [int]s is and a length. *)
Definition true_div (total : Z) (count : nat) : result Q :=
  match count with
  | O => Raise ZeroDivisionError
  | S _ => binary64_quotient total (Pos.of_nat count)
  end.

(** [[l['year'] for l in all_listings if l.get('year')]]. *)
Fixpoint collect_years (all_listings : list dict) : result (list pyval) :=
  match all_listings with
  | [] => Ok []
  | l :: rest =>
      if has_year l
      then match dict_getitem l "year" with
           | Raise e => Raise e
           | Ok y =>
               match collect_years rest with
               | Raise e => Raise e
               | Ok ys => Ok (y :: ys)
               end
           end
      else collect_years rest
  end.

(** [min] over the rest of a sequence, [best] being the least so far. *)
Fixpoint py_min_from (best : pyval) (rest : list pyval) : result pyval :=
  match rest with
  | [] => Ok best
  | y :: rest' =>
      match py_lt y best with
      | Raise e => Raise e
      | Ok true => py_min_from y rest'
      | Ok false => py_min_from best rest'
      end
  end.

(** [max] over the rest of a sequence. *)
Fixpoint py_max_from (best : pyval) (rest : list pyval) : result pyval :=
  match rest with
  | [] => Ok best
  | y :: rest' =>
      match py_lt best y with
      | Raise e => Raise e
      | Ok true => py_max_from y rest'
      | Ok false => py_max_from best rest'
      end
  end.

(** The statistics block, lines 348-354.  The two [logger.info] calls are
    kept as events, with the values they print. *)
Definition report_statistics (all_listings : list dict) : M unit :=
  match all_listings with
  | [] => ret tt
  | _ :: _ =>
      total <- lift (sum_prices all_listings 0) ;;
      avg_price <- lift (true_div total (count_prices all_listings)) ;;
      log_event (EvAveragePrice avg_price) ;;
      years <- lift (collect_years all_listings) ;;
      match years with
      | [] => ret tt
      | y :: rest =>
          lo <- lift (py_min_from y rest) ;;
          hi <- lift (py_max_from y rest) ;;
          log_event (EvYearRange lo hi)
      end
  end.

(** [search_configs], lines 296-318: the name of each search, and the
    keyword arguments [search_cars] is called with (the entries of the
    configuration other than the name, over the defaults). *)
Definition search_configs : list (string * search_kwargs) :=
  [ ("All Stockholm Cars",
     {| query := None; locations := Some [STOCKHOLM];
        price_from := None; price_to := None;
        year_from := None; year_to := None;
        mileage_from := None; mileage_to := None;
        sort_order := LATEST; max_results := 50 |});
    ("Potential Classics (15-30 years old)",
     {| query := None; locations := Some [STOCKHOLM; UPPSALA; GOTEBORG];
        price_from := None; price_to := None;
        year_from := Some 1995; year_to := Some 2010;
        mileage_from := None; mileage_to := None;
        sort_order := PRICE_ASC; max_results := 100 |});
    ("Budget Cars Under 50k",
     {| query := None; locations := Some [STOCKHOLM];
        price_from := None; price_to := Some 50000;
        year_from := None; year_to := None;
        mileage_from := None; mileage_to := None;
        sort_order := PRICE_ASC; max_results := 50 |}) ].

(** The dry-run branch, lines 338-340: the count is logged, then the
    title, price and year of the first three listings are read. *)
Fixpoint dry_run_samples (listings : list dict) : result unit :=
  match listings with
  | [] => Ok tt
  | listing :: rest =>
      match dict_getitem listing "title" with
      | Raise e => Raise e
      | Ok _ =>
          match dict_getitem listing "price" with
          | Raise e => Raise e
          | Ok _ =>
              match dict_getitem listing "year" with
              | Raise e => Raise e
              | Ok _ => dry_run_samples rest
              end
          end
      end
  end.

Definition dry_run (listings : list dict) : M unit :=
  log_event (EvDryRun (List.length listings)) ;;
  lift (dry_run_samples (firstn 3 listings)).

(** The loop over the configurations, lines 322-343. *)
Fixpoint main_loop (kafka_producer : option CarDataKafkaProducer)
    (configs : list (string * search_kwargs)) (all_listings : list dict)
    : M (list dict) :=
  match configs with
  | [] => ret all_listings
  | (_, kw) :: rest =>
      listings <- search_cars kw ;;
      all_listings' <-
        match listings with
        | [] => ret all_listings
        | _ :: _ =>
            match kafka_producer with
            | Some kp => _ <- send_batch kp listings ;; ret tt
            | None => dry_run listings
            end ;;
            ret (all_listings ++ listings)%list
        end ;;
      sleep 2 ;;
      main_loop kafka_producer rest all_listings'
  end.

(** Lines 285-293: the producer, or [None] for the dry run. *)
Definition init_kafka_producer : M (option CarDataKafkaProducer) :=
  try_except
    (kp <- CarDataKafkaProducer_init (Some ["localhost:9092"]) "raw-car-listings" ;;
     ret (Some kp))
    isinstance_Exception
    (fun _ => ret None).

(** Lines 282-345: everything before the statistics. *)
Definition collect_listings : M (option CarDataKafkaProducer * list dict) :=
  kafka_producer <- init_kafka_producer ;;
  all_listings <- main_loop kafka_producer search_configs [] ;;
  ret (kafka_producer, all_listings).

(** [main], lines 277-358. *)
Definition main : M unit :=
  collected <- collect_listings ;;
  report_statistics (snd collected) ;;
  match fst collected with
  | Some kp => close kp
  | None => ret tt
  end.

End Program.

(** * Properties *)

(** An ad with the given [ad_id] and none of the optional attributes. *)
Definition bare_ad (id : option Z) : RawAd :=
  {| ad_id := option_map SInt id; subject := None; body := None; price := None;
     year := None;
     mileage := None; location := None; images := None; list_time := None;
     make := None; model := None; fuel_type := None; transmission := None;
     body_type := None; color := None; engine_power := None |}.

(** A marketplace that gives every search the same [answer], a broker that
    cannot be reached when [reachable] is false and that acknowledges the
    sends whose index [acks] accepts. *)
Definition sample_env (answer : result (list RawAd)) (reachable : bool)
    (acks : nat -> bool) : Env :=
  {| api_search_car := fun _ _ => answer;
     api_get_ad := fun _ _ => Raise KeyError;
     kafka_connect := fun _ => if reachable then None else Some KafkaError;
     kafka_deliver := fun n _ => if acks n then None else Some KafkaError;
     utcnow := fun _ => "2024-05-01T12:00:00" |}.

(** A publisher whose client is connected. *)
Definition connected_producer : CarDataKafkaProducer :=
  {| bootstrap_servers := ["localhost:9092"];
     topic := "raw-car-listings";
     producer := Some {| kp_bootstrap_servers := ["localhost:9092"] |} |}.

(** The clock read once more; nothing else moves. *)
Definition tick (w : world) : world :=
  {| n_api := n_api w; n_connect := n_connect w; n_deliver := n_deliver w;
     n_clock := S (n_clock w); trace := trace w |}.

(** The four reads of [_parse_ad] that can raise all succeed. *)
Definition normalizes (ad : RawAd) : bool :=
  is_Ok (attr (ad_id ad)) && is_Ok (price_value ad)
  && is_Ok (_extract_location ad) && is_Ok (_extract_image ad).

(** [d] is the record [_parse_ad] makes of [ad] at some moment of a run. *)
Definition normalized_from (env : Env) (ad : RawAd) (d : dict) : Prop :=
  exists w, _parse_ad env ad w = (Ok (Some d), tick w).

(** The three keys the dry run reads are there. *)
Definition sample_ready (d : dict) : Prop :=
  dict_lookup d "title" <> None
  /\ dict_lookup d "price" <> None
  /\ dict_lookup d "year" <> None.

(** The third built-in search, "Budget Cars Under 50k": Stockholm, up to
    50000 SEK, cheapest first, at most 50 results. *)
Definition budget_profile : search_kwargs :=
  snd (nth 2 search_configs (EmptyString, search_defaults)).

(** Seventy ads of which the first has no [ad_id]. *)
Definition seventy_ads : list RawAd :=
  bare_ad None :: map (fun n => bare_ad (Some (Z.of_nat n))) (seq 1 69).

(** What the calls of [send_listing] made by one [send_batch] return, one
    after the other, from the world [w]; an exception ends the batch. *)
Fixpoint send_outcomes (env : Env) (self : CarDataKafkaProducer)
    (listings : list dict) (w : world) : list (result bool) :=
  match listings with
  | [] => []
  | listing :: rest =>
      let rw := send_listing env self listing w in
      fst rw :: match fst rw with
                | Ok _ => send_outcomes env self rest (snd rw)
                | Raise _ => []
                end
  end.

(** How many sends returned [b]: the failed ones for [false], the
    successful ones for [true]. *)
Definition count_returned (b : bool) (outcomes : list (result bool)) : nat :=
  List.length
    (filter (fun r => match r with Ok b' => Bool.eqb b b' | Raise _ => false end)
       outcomes).

(** Three records with the ids 1, 2 and 3. *)
Definition three_records : list dict :=
  [ [("listing_id", VStr "1")]; [("listing_id", VStr "2")]; [("listing_id", VStr "3")] ].

(** [send_listing] hands exactly one message to the broker, with the key
    [k] and the record as its value. *)
Definition sent_with_key (env : Env) (self : CarDataKafkaProducer)
    (listing : dict) (w : world) (k : option string) : Prop :=
  let m := {| msg_topic := topic self; msg_key := k; msg_value := listing |} in
  trace (snd (send_listing env self listing w))
  = (trace w ++ [EvSend m (kafka_deliver env (n_deliver w) m)])%list.

(** The calls that reach the Kafka client. *)
Definition is_kafka_event (e : event) : bool :=
  match e with
  | EvConnect _ | EvSend _ _ | EvFlush | EvClose => true
  | _ => false
  end.

Definition is_search_event (e : event) : bool :=
  match e with
  | EvSearch _ => true
  | _ => false
  end.

(** What three failed attempts to connect to [servers] leave in the trace. *)
Definition three_attempts (servers : list string) : list event :=
  [EvConnect servers; EvSleep 5; EvConnect servers; EvSleep 5; EvConnect servers].

(** The spec's words for the images of an ad.  Its image entries are the
    entries of the list [ad.images], none when the attribute is missing
    or is not a list; the URL of an entry is its ['url'], null for an
    entry without one. *)
Definition image_url_of (img : dict) : pyval := dict_get img "url" VNone.

Definition entry_url (entry : pyval) : pyval :=
  match entry with
  | VDict img => image_url_of img
  | _ => VNone
  end.

Definition image_entries (ad : RawAd) : list pyval :=
  match images ad with
  | Some (VList entries) => entries
  | _ => []
  end.

(** The first image's URL, or null when there are no images. *)
Definition first_image_url (ad : RawAd) : pyval :=
  match image_entries ad with
  | [] => VNone
  | entry :: _ => entry_url entry
  end.

(** Every non-empty image URL, in source order. *)
Definition nonempty_image_urls (ad : RawAd) : list pyval :=
  filter py_truthy (map entry_url (image_entries ad)).

(** The records of the statistics scenario. *)
Definition scenario_records : list dict :=
  [ [("price", VInt 100000); ("year", VInt 2010)];
    [("price", VNone); ("year", VInt 2005)];
    [("price", VInt 50000); ("year", VNone)] ].

(** The listings gathered by a run of [collect_listings], if it returned. *)
Definition collected (r : result (option CarDataKafkaProducer * list dict) * world)
    : list dict :=
  match fst r with
  | Ok (_, all_listings) => all_listings
  | Raise _ => []
  end.

(** Five image entries: a URL, an empty URL, an entry without URL, the
    first URL again, and another URL. *)
Definition gallery : list dict :=
  [ [("url", VStr "https://img/a.jpg")];
    [("url", VStr EmptyString)];
    [("alt", VStr "front")];
    [("url", VStr "https://img/a.jpg")];
    [("url", VStr "https://img/b.jpg")] ].

(** The keys every summary record has, and every detail record, in the
    order of the dictionary displays of lines 116-128 and 149-163. *)
Definition summary_fixed_keys : list string :=
  ["listing_id"; "title"; "price"; "year"; "mileage"; "location"; "url";
   "image_url"; "scraped_at"; "source"; "category"].

Definition detail_fixed_keys : list string :=
  ["listing_id"; "title"; "description"; "price"; "year"; "mileage";
   "location"; "url"; "images"; "posted_date"; "scraped_at"; "source";
   "category"].

(** The names, among [attrs], of the attributes the ad has. *)
Definition exposed (attrs : list (string * option pyval)) : list string :=
  map fst (filter (fun a => hasattr (snd a)) attrs).

(** The optional car attributes of the two paths. *)
Definition summary_optional (ad : RawAd) : list (string * option pyval) :=
  [("make", make ad); ("model", model ad); ("fuel_type", fuel_type ad);
   ("transmission", transmission ad)].

Definition detail_optional (ad : RawAd) : list (string * option pyval) :=
  (summary_optional ad
   ++ [("body_type", body_type ad); ("color", color ad);
       ("engine_power", engine_power ad)])%list.

(** A missing attribute, or a falsy value, or a dictionary. *)
Definition absent_falsy_or_dict (a : option pyval) : bool :=
  match a with
  | None => true
  | Some (VDict _) => true
  | Some v => negb (py_truthy v)
  end.

Definition is_dict (v : pyval) : bool :=
  match v with
  | VDict _ => true
  | _ => false
  end.

(** The shape of an ad that the summary path accepts: an [ad_id], a price
    that is missing or a dictionary, a location that is missing, falsy or
    a dictionary, and images that are missing, falsy or a list whose first
    entry is a dictionary. *)
Definition summary_shape (ad : RawAd) : bool :=
  match ad_id ad with Some _ => true | None => false end
  && match price ad with None => true | Some v => is_dict v end
  && absent_falsy_or_dict (location ad)
  && match images ad with
     | None => true
     | Some (VList (img :: _)) => is_dict img
     | Some v => negb (py_truthy v)
     end.

(** The shape the detail path accepts: as above, but every entry of the
    list of images has to be a dictionary. *)
Definition detail_shape (ad : RawAd) : bool :=
  match ad_id ad with Some _ => true | None => false end
  && match price ad with None => true | Some v => is_dict v end
  && absent_falsy_or_dict (location ad)
  && match images ad with
     | None => true
     | Some (VList (img :: rest)) => forallb is_dict (img :: rest)
     | Some v => negb (py_truthy v)
     end.

(** An ad with a price, a location, images and three of the optional
    car attributes. *)
Definition volvo_ad : RawAd :=
  {| ad_id := Some (SInt 4711); subject := Some (VStr "Volvo V70"); body := None;
     price := Some (VDict [("value", VInt 45000); ("suffix", VStr "kr")]);
     year := Some (VInt 2004); mileage := None;
     location := Some (VDict [("name", VStr "Uppsala")]);
     images := Some (VList (map VDict gallery));
     list_time := None; make := Some (VStr "Volvo"); model := None;
     fuel_type := Some (VStr "Diesel"); transmission := None;
     body_type := None; color := Some (VStr "Blue");
     engine_power := None |}.

(** An ad whose second image entry is [None] instead of a dictionary. *)
Definition half_broken_ad : RawAd :=
  {| ad_id := Some (SInt 4712); subject := Some (VStr "Saab 9-5"); body := None;
     price := None; year := None; mileage := None; location := None;
     images := Some (VList [VDict [("url", VStr "https://img/a.jpg")]; VNone]);
     list_time := None; make := None; model := None; fuel_type := None;
     transmission := None; body_type := None; color := None;
     engine_power := None |}.

(** An ad whose [ad_id] is the empty string. *)
Definition nameless_ad : RawAd :=
  {| ad_id := Some (SStr EmptyString); subject := None; body := None;
     price := None; year := None; mileage := None; location := None;
     images := None; list_time := None; make := None; model := None;
     fuel_type := None; transmission := None; body_type := None;
     color := None; engine_power := None |}.

(** A marketplace that knows [volvo_ad] only, and a broker that works. *)
Definition volvo_env : Env :=
  {| api_search_car := fun _ _ => Ok [volvo_ad];
     api_get_ad := fun _ id => if id =? 4711 then Ok volvo_ad else Raise KeyError;
     kafka_connect := fun _ => None;
     kafka_deliver := fun _ _ => None;
     utcnow := fun _ => "2024-05-01T12:00:00" |}.

(** The records the two paths make of [volvo_ad]. *)
Definition volvo_summary : dict :=
  match fst (_parse_ad volvo_env volvo_ad world0) with
  | Ok (Some d) => d
  | _ => []
  end.

Definition volvo_details : dict :=
  match fst (_parse_ad_details volvo_env volvo_ad world0) with
  | Ok (Some d) => d
  | _ => []
  end.

(** The record the summary path makes of [nameless_ad]. *)
Definition nameless_summary : dict :=
  match fst (_parse_ad volvo_env nameless_ad world0) with
  | Ok (Some d) => d
  | _ => []
  end.

(** Whether a call returned a record. *)
Definition yields_record (r : result (option dict) * world) : bool :=
  match fst r with
  | Ok (Some _) => true
  | _ => false
  end.

(** The broker fails with a [KafkaError] or not at all. *)
Definition kafka_only (env : Env) : Prop :=
  forall n m e, kafka_deliver env n m = Some e -> isinstance_KafkaError e = true.

(** Both serializers of [_connect] accept the record. *)
Definition publishable (listing : dict) : bool :=
  is_Ok (key_serializer (dict_get listing "listing_id" (VStr "unknown")))
  && json_serializable (VDict listing).

Definition is_send_event (e : event) : bool :=
  match e with
  | EvSend _ _ => true
  | _ => false
  end.

(** The value of a message handed to the broker. *)
Definition sent_value (e : event) : option dict :=
  match e with
  | EvSend m _ => Some (msg_value m)
  | _ => None
  end.

(** The message was acknowledged. *)
Definition is_acked (e : event) : bool :=
  match e with
  | EvSend _ None => true
  | _ => false
  end.

(** What [k] failed attempts to connect, followed by one more attempt,
    leave in the trace. *)
Definition attempts_after (k : nat) (servers : list string) : list event :=
  (List.concat (repeat [EvConnect servers; EvSleep 5] k) ++ [EvConnect servers])%list.

(** The values of the attributes that go into a record are all values
    [json.dumps] accepts. *)
Definition attr_serializable (a : option pyval) : bool :=
  match a with
  | None => true
  | Some v => json_serializable v
  end.

Definition ad_serializable (ad : RawAd) : bool :=
  forallb attr_serializable
    [subject ad; body ad; price ad; year ad; mileage ad; location ad;
     images ad; list_time ad; make ad; model ad; fuel_type ad;
     transmission ad; body_type ad; color ad; engine_power ad].

(** A broker whose first connection attempt fails and whose second one
    succeeds. *)
Definition flaky_env : Env :=
  {| api_search_car := fun _ _ => Ok [];
     api_get_ad := fun _ _ => Raise KeyError;
     kafka_connect := fun n => match n with O => Some KafkaError | _ => None end;
     kafka_deliver := fun _ _ => None;
     utcnow := fun _ => "2024-05-01T12:00:00" |}.

(** A client library that rejects its configuration with a [TypeError]. *)
Definition misconfigured_env : Env :=
  {| api_search_car := fun _ _ => Ok [];
     api_get_ad := fun _ _ => Raise KeyError;
     kafka_connect := fun _ => Some TypeError;
     kafka_deliver := fun _ _ => None;
     utcnow := fun _ => "2024-05-01T12:00:00" |}.

(** A search with the cap 0. *)
Definition capped_at_zero : search_kwargs :=
  {| query := Some "Volvo V70"; locations := Some [];
     price_from := None; price_to := None; year_from := None; year_to := None;
     mileage_from := None; mileage_to := None;
     sort_order := PRICE_ASC; max_results := 0 |}.

(** A price or a year as the statistics expect it: missing, null or an
    [int]. *)
Definition int_or_null (v : option pyval) : bool :=
  match v with
  | None | Some VNone | Some (VInt _) => true
  | Some _ => false
  end.

(** The non-zero [int]s under the key [k], in the order of the listings. *)
Definition int_values (k : string) (all_listings : list dict) : list Z :=
  flat_map (fun l => match dict_lookup l k with
                     | Some (VInt z) => if z =? 0 then [] else [z]
                     | _ => []
                     end) all_listings.

Definition Zsum (l : list Z) : Z := fold_right Z.add 0 l.

(** What a run in which no search finds anything leaves in the trace
    between the connection and the end. *)
Definition searches_and_sleeps (configs : list (string * search_kwargs)) : list event :=
  flat_map (fun c => [EvSearch (search_args (snd c)); EvSleep 2]) configs.

(** The publisher [main] builds when the connection succeeds. *)
Definition main_producer : CarDataKafkaProducer :=
  {| bootstrap_servers := ["localhost:9092"];
     topic := "raw-car-listings";
     producer := Some {| kp_bootstrap_servers := ["localhost:9092"] |} |}.

(** The values handed to the broker, in the order of the trace. *)
Definition sent_values (evs : list event) : list dict :=
  flat_map (fun e => match sent_value e with Some v => [v] | None => [] end) evs.

(** Every ad the marketplace ever returns has attribute values
    [json.dumps] accepts. *)
Definition ads_serializable (env : Env) : Prop :=
  forall n args ads,
    api_search_car env n args = Ok ads -> forallb ad_serializable ads = true.

Ltac unfold_monad :=
  unfold bind, ret, raise, lift, try_except, sleep, log_event,
    isinstance_Exception in *.

(** ** Normalization *)

Lemma parse_ad_body_missing_id (env : Env) (ad : RawAd) (w : world) :
  ad_id ad = None -> parse_ad_body env ad w = (Raise AttributeError, w).
Proof.
  intros H. unfold parse_ad_body, bind, lift. rewrite H. reflexivity.
Qed.

Lemma parse_ad_details_body_missing_id (env : Env) (ad : RawAd) (w : world) :
  ad_id ad = None -> parse_ad_details_body env ad w = (Raise AttributeError, w).
Proof.
  intros H. unfold parse_ad_details_body, bind, lift. rewrite H. reflexivity.
Qed.

(** C6: a raw ad without [ad_id] yields no record on the summary path and
    on the detail path, and in the loop of [search_cars] it is skipped:
    the loop goes on with the next ad and the listings gathered so far. *)
Theorem missing_listing_id_yields_no_record
    (env : Env) (ad : RawAd) (w : world) :
  ad_id ad = None ->
  _parse_ad env ad w = (Ok None, w)
  /\ _parse_ad_details env ad w = (Ok None, w)
  /\ forall rest idx mx listings,
       idx < mx ->
       search_loop env (ad :: rest) idx mx listings w
       = search_loop env rest (idx + 1) mx listings w.
Proof.
  intros H.
  assert (Hs : _parse_ad env ad w = (Ok None, w)).
  { unfold _parse_ad, try_except, bind.
    rewrite (parse_ad_body_missing_id env ad w H). reflexivity. }
  split; [exact Hs|]. split.
  - unfold _parse_ad_details, try_except, bind.
    rewrite (parse_ad_details_body_missing_id env ad w H). reflexivity.
  - intros rest idx mx listings Hlt. simpl.
    destruct (idx >=? mx) eqn:E; [lia|].
    unfold bind at 1. unfold try_except, bind. rewrite Hs. reflexivity.
Qed.

Lemma missing_listing_id_yields_no_record_witness :
  let ad := bare_ad None in
  let env := sample_env (Ok [ad]) false (fun _ => true) in
  _parse_ad env ad world0 = (Ok None, world0)
  /\ _parse_ad_details env ad world0 = (Ok None, world0)
  /\ forall rest idx mx listings,
       idx < mx ->
       search_loop env (ad :: rest) idx mx listings world0
       = search_loop env rest (idx + 1) mx listings world0.
Proof.
  apply (@missing_listing_id_yields_no_record
           (sample_env (Ok [bare_ad None]) false (fun _ => true)) (bare_ad None) world0).
  reflexivity.
Defined.

(** ** Source failure *)

(** C7: when the marketplace call raises, [search_cars] returns the empty
    list and raises nothing; the call is then the same, in what it returns
    and in what it leaves behind, as one the marketplace answered with no
    ad at all. *)
Theorem search_cars_source_failure_is_empty
    (env env' : Env) (kw : search_kwargs) (w : world) (e : exn) :
  api_search_car env (n_api w) (search_args kw) = Raise e ->
  api_search_car env' (n_api w) (search_args kw) = Ok [] ->
  fst (search_cars env kw w) = Ok []
  /\ search_cars env kw w = search_cars env' kw w.
Proof.
  intros Hfail Hempty.
  unfold search_cars, try_except, bind, search_car, isinstance_Exception, ret.
  rewrite Hfail, Hempty. simpl. split; reflexivity.
Qed.

Lemma search_cars_source_failure_is_empty_witness :
  let env := sample_env (Raise ConnectionError) true (fun _ => true) in
  let env' := sample_env (Ok []) true (fun _ => true) in
  fst (search_cars env search_defaults world0) = Ok []
  /\ search_cars env search_defaults world0 = search_cars env' search_defaults world0.
Proof.
  apply (@search_cars_source_failure_is_empty
           (sample_env (Raise ConnectionError) true (fun _ => true))
           (sample_env (Ok []) true (fun _ => true))
           search_defaults world0 ConnectionError);
    reflexivity.
Defined.

(** ** Dictionaries *)

Lemma dict_lookup_set_other (d : dict) (k k' : string) (v : pyval) :
  (k =? k')%string = false ->
  dict_lookup (dict_set d k v) k' = dict_lookup d k'.
Proof.
  intros Hne. induction d as [|[k0 v0] d IH]; simpl.
  - rewrite Hne. reflexivity.
  - destruct (k0 =? k)%string eqn:E0; simpl.
    + apply String.eqb_eq in E0. subst k0. rewrite Hne. reflexivity.
    + destruct (k0 =? k')%string; [reflexivity | exact IH].
Qed.

Lemma dict_lookup_set_if_hasattr_other (d : dict) (k k' : string) (a : option pyval) :
  (k =? k')%string = false ->
  dict_lookup (set_if_hasattr d k a) k' = dict_lookup d k'.
Proof.
  intros Hne. destruct a; simpl; [apply dict_lookup_set_other; exact Hne | reflexivity].
Qed.

Lemma dict_set_truthy (d : dict) (k : string) (v : pyval) :
  py_truthy (VDict (dict_set d k v)) = true.
Proof.
  destruct d as [|[k0 v0] d]; simpl; [reflexivity|].
  destruct (k0 =? k)%string; reflexivity.
Qed.

Lemma set_if_hasattr_truthy (d : dict) (k : string) (a : option pyval) :
  py_truthy (VDict d) = true -> py_truthy (VDict (set_if_hasattr d k a)) = true.
Proof.
  intros H. destruct a; simpl; [apply dict_set_truthy | exact H].
Qed.

Ltac lookup_through_sets :=
  repeat (rewrite dict_lookup_set_if_hasattr_other by reflexivity); simpl.

(** ** What [_parse_ad] returns *)

Lemma parse_ad_normalizes (env : Env) (ad : RawAd) (w : world) :
  normalizes ad = true ->
  exists d,
    _parse_ad env ad w = (Ok (Some d), tick w)
    /\ listing_truthy (Some d) = true
    /\ sample_ready d
    /\ dict_lookup d "listing_id" = option_map (fun id => VStr (py_str id)) (ad_id ad)
    /\ dict_lookup d "image_url" = match _extract_image ad with
                                   | Ok v => Some v
                                   | Raise _ => None
                                   end
    /\ dict_lookup d "images" = None.
Proof.
  unfold normalizes. intros H.
  unfold _parse_ad, parse_ad_body, try_except, bind, lift, ret, utcnow_isoformat.
  destruct (ad_id ad) as [id|]; simpl in H; [|discriminate].
  destruct (price_value ad) as [p|]; simpl in H; [|discriminate].
  destruct (_extract_location ad) as [loc|]; simpl in H; [|discriminate].
  destruct (_extract_image ad) as [img|]; simpl in H; [|discriminate].
  simpl. eexists. split; [reflexivity|].
  split; [|split; [|split; [|split]]].
  - unfold listing_truthy. repeat apply set_if_hasattr_truthy. reflexivity.
  - unfold sample_ready. lookup_through_sets. repeat split; discriminate.
  - lookup_through_sets. reflexivity.
  - lookup_through_sets. reflexivity.
  - lookup_through_sets. reflexivity.
Qed.

Lemma parse_ad_does_not_normalize (env : Env) (ad : RawAd) (w : world) :
  normalizes ad = false -> _parse_ad env ad w = (Ok None, w).
Proof.
  unfold normalizes. intros H.
  unfold _parse_ad, parse_ad_body, try_except, bind, lift, ret, isinstance_Exception.
  destruct (ad_id ad) as [id|]; simpl in *; [|reflexivity].
  destruct (price_value ad) as [p|]; simpl in *; [|reflexivity].
  destruct (_extract_location ad) as [loc|]; simpl in *; [|reflexivity].
  destruct (_extract_image ad) as [img|]; simpl in *; [discriminate|reflexivity].
Qed.

(** The loop of [search_cars] never raises: it returns the listings it was
    given followed by the records of the ads that normalize among those it
    still looks at, in their order, and leaves the trace as it was. *)
Lemma search_loop_spec (env : Env) (ads : list RawAd) :
  forall (idx mx : Z) (listings : list dict) (w : world),
  exists ls w',
    search_loop env ads idx mx listings w = (Ok (listings ++ ls)%list, w')
    /\ trace w' = trace w
    /\ n_api w' = n_api w
    /\ Forall2 (normalized_from env)
         (filter normalizes (firstn (Z.to_nat (mx - idx)) ads)) ls
    /\ Forall sample_ready ls.
Proof.
  induction ads as [|ad rest IH]; intros idx mx listings w.
  - exists [], w. simpl. rewrite app_nil_r, firstn_nil. simpl.
    repeat split; constructor.
  - simpl. destruct (idx >=? mx) eqn:E.
    + exists [], w. rewrite app_nil_r.
      replace (Z.to_nat (mx - idx)) with 0%nat by lia. simpl.
      repeat split; constructor.
    + replace (Z.to_nat (mx - idx)) with (S (Z.to_nat (mx - (idx + 1)))) by lia.
      simpl. destruct (normalizes ad) eqn:N.
      * destruct (parse_ad_normalizes env ad w N) as (d & Hd & Ht & Hs & _).
        destruct (IH (idx + 1) mx (listings ++ [d])%list (tick w))
          as (ls & w' & Hrun & Htr & Hapi & Hall & Hready).
        exists (d :: ls), w'.
        unfold bind at 1. unfold try_except, bind, ret. rewrite Hd.
        rewrite Ht. rewrite Hrun. rewrite <- app_assoc. simpl.
        repeat split; try assumption.
        -- constructor; [exists w; exact Hd | exact Hall].
        -- constructor; [apply Hs | exact Hready].
      * destruct (IH (idx + 1) mx listings w)
          as (ls & w' & Hrun & Htr & Hapi & Hall & Hready).
        exists ls, w'.
        unfold bind at 1. unfold try_except, bind, ret.
        rewrite (parse_ad_does_not_normalize env ad w N). rewrite Hrun.
        repeat split; assumption.
Qed.

(** ** The cap of [search_cars] *)

Lemma search_cars_spec (env : Env) (kw : search_kwargs) (w : world) (ads : list RawAd) :
  api_search_car env (n_api w) (search_args kw) = Ok ads ->
  exists ls w',
    search_cars env kw w = (Ok ls, w')
    /\ trace w' = (trace w ++ [EvSearch (search_args kw)])%list
    /\ Forall2 (normalized_from env)
         (filter normalizes (firstn (Z.to_nat (max_results kw)) ads)) ls
    /\ Forall sample_ready ls.
Proof.
  intros Hads.
  unfold search_cars, try_except, bind, search_car. rewrite Hads.
  match goal with
  | |- context [search_loop env ads 0 ?mx [] ?w0] =>
      destruct (search_loop_spec env ads 0 mx [] w0)
        as (ls & w' & Hrun & Htr & _ & Hall & Hready)
  end.
  rewrite Hrun. simpl in *. rewrite Z.sub_0_r in Hall.
  exists ls, w'. repeat split; assumption.
Qed.

(** [search_cars] returns whatever the marketplace does, and the dry run
    can read every record it returns. *)
Lemma search_cars_returns (env : Env) (kw : search_kwargs) (w : world) :
  exists ls w',
    search_cars env kw w = (Ok ls, w')
    /\ trace w' = (trace w ++ [EvSearch (search_args kw)])%list
    /\ Forall sample_ready ls.
Proof.
  destruct (api_search_car env (n_api w) (search_args kw)) as [ads|e] eqn:Hapi.
  - destruct (search_cars_spec env kw w Hapi) as (ls & w' & Hrun & Htr & _ & Hready).
    exists ls, w'. repeat split; assumption.
  - exists [].
    unfold search_cars, try_except, bind, search_car, isinstance_Exception, ret.
    rewrite Hapi. eexists. repeat split; constructor.
Qed.

Lemma filter_length_le {A} (f : A -> bool) (l : list A) :
  (List.length (filter f l) <= List.length l)%nat.
Proof.
  induction l as [|x l IH]; simpl; [lia|].
  destruct (f x); simpl; lia.
Qed.

Lemma filter_all {A} (f : A -> bool) (l : list A) :
  forallb f l = true -> filter f l = l.
Proof.
  induction l as [|x l IH]; simpl; intros H; [reflexivity|].
  apply andb_prop in H. destruct H as [Hx Hl].
  rewrite Hx. f_equal. apply IH. exact Hl.
Qed.

(** C4, as the code has it: with [max_results = 50] and a source that
    returns 70 ads, [search_cars] returns the records of those of the
    first 50 ads that normalize, one per ad and in the order the source
    gave them; so at most 50 records, and exactly 50 when each of the
    first 50 ads normalizes. *)
Theorem search_cars_caps_at_max_results
    (env : Env) (kw : search_kwargs) (w : world) (ads : list RawAd) :
  max_results kw = 50 ->
  List.length ads = 70%nat ->
  api_search_car env (n_api w) (search_args kw) = Ok ads ->
  exists ls,
    fst (search_cars env kw w) = Ok ls
    /\ Forall2 (normalized_from env) (filter normalizes (firstn 50 ads)) ls
    /\ (List.length ls <= 50)%nat
    /\ (forallb normalizes (firstn 50 ads) = true -> List.length ls = 50%nat).
Proof.
  intros Hmx Hlen Hads.
  destruct (search_cars_spec env kw w Hads) as (ls & w' & Hrun & _ & Hall & _).
  rewrite Hmx in Hall. change (Z.to_nat 50) with 50%nat in Hall.
  exists ls. rewrite Hrun. split; [reflexivity|]. split; [exact Hall|].
  pose proof (Forall2_length Hall) as Hl.
  assert (Hfirst : List.length (firstn 50 ads) = 50%nat).
  { rewrite length_firstn. lia. }
  split.
  - rewrite <- Hl. pose proof (filter_length_le normalizes (firstn 50 ads)). lia.
  - intros Hok. rewrite <- Hl, (filter_all _ _ Hok). exact Hfirst.
Qed.

Lemma search_cars_caps_at_max_results_witness :
  let ads := map (fun n => bare_ad (Some (Z.of_nat n))) (seq 1 70) in
  let env := sample_env (Ok ads) true (fun _ => true) in
  exists ls,
    fst (search_cars env budget_profile world0) = Ok ls
    /\ Forall2 (normalized_from env) (filter normalizes (firstn 50 ads)) ls
    /\ (List.length ls <= 50)%nat
    /\ (forallb normalizes (firstn 50 ads) = true -> List.length ls = 50%nat).
Proof.
  apply (@search_cars_caps_at_max_results
           (sample_env (Ok (map (fun n => bare_ad (Some (Z.of_nat n))) (seq 1 70)))
              true (fun _ => true))
           budget_profile world0
           (map (fun n => bare_ad (Some (Z.of_nat n))) (seq 1 70)));
    reflexivity.
Defined.

(** C4 as stated fails: the source returns 70 ads, the cap is 50, and 49
    records come back, because the first ad has no [ad_id]. *)
Lemma search_cars_exactly_50_counterexample :
  List.length seventy_ads = 70%nat
  /\ max_results budget_profile = 50
  /\ exists ls,
       fst (search_cars (sample_env (Ok seventy_ads) true (fun _ => true))
              budget_profile world0) = Ok ls
       /\ List.length ls = 49%nat.
Proof.
  split; [reflexivity|]. split; [reflexivity|].
  eexists. split; [vm_compute; reflexivity | reflexivity].
Qed.

(** ** The tally of [send_batch] *)

Lemma count_returned_cons (b b' : bool) (outcomes : list (result bool)) :
  count_returned b (Ok b' :: outcomes)
  = ((if Bool.eqb b b' then 1 else 0) + count_returned b outcomes)%nat.
Proof.
  unfold count_returned. simpl. destruct (Bool.eqb b b'); reflexivity.
Qed.

Lemma send_batch_loop_tally (env : Env) (self : CarDataKafkaProducer)
    (listings : list dict) :
  forall (c : Z) (w : world),
  forallb is_Ok (send_outcomes env self listings w) = true ->
  exists w',
    send_batch_loop env self listings c w
    = (Ok (c + Z.of_nat (count_returned true (send_outcomes env self listings w))), w')
    /\ (count_returned true (send_outcomes env self listings w)
        + count_returned false (send_outcomes env self listings w)
        = List.length listings)%nat.
Proof.
  induction listings as [|l rest IH]; intros c w Hall.
  - exists w. simpl. rewrite Z.add_0_r. split; reflexivity.
  - cbn [send_outcomes send_batch_loop] in Hall |- *. unfold bind at 1.
    destruct (send_listing env self l w) as [[sent|e] w1] eqn:Hsend;
      cbn [fst snd forallb is_Ok andb] in Hall |- *; [|discriminate].
    destruct (IH (if sent then c + 1 else c) w1 Hall) as (w' & Hrun & Hcount).
    exists w'. rewrite Hrun, !count_returned_cons.
    destruct sent; cbn [Bool.eqb List.length]; split; try (f_equal; f_equal; lia); lia.
Qed.

(** C1, as the code has it: when every send of the batch returns, K of
    them false and the other N-K true, [send_batch] returns N-K, the
    number of successes, after the flush. *)
Theorem send_batch_returns_success_count
    (env : Env) (self : CarDataKafkaProducer) (p : KafkaProducer)
    (listings : list dict) (w : world) :
  producer self = Some p ->
  forallb is_Ok (send_outcomes env self listings w) = true ->
  let outcomes := send_outcomes env self listings w in
  let N := Z.of_nat (List.length listings) in
  let K := Z.of_nat (count_returned false outcomes) in
  N - K = Z.of_nat (count_returned true outcomes)
  /\ exists w' evs,
       send_batch env self listings w = (Ok (N - K), w')
       /\ trace w' = (evs ++ [EvFlush])%list.
Proof.
  intros Hp Hall outcomes N K.
  destruct (send_batch_loop_tally env self listings 0 w Hall) as (w' & Hrun & Hcount).
  fold outcomes in Hrun, Hcount.
  assert (HNK : N - K = Z.of_nat (count_returned true outcomes)).
  { subst N K. lia. }
  split; [exact HNK|].
  exists (emit EvFlush w'), (trace w').
  unfold send_batch, bind, lift, log_event, ret. rewrite Hrun, Hp. simpl.
  rewrite HNK. split; reflexivity.
Qed.

Lemma send_batch_returns_success_count_witness :
  let env := sample_env (Ok []) true (fun n => negb (Nat.eqb n 1)) in
  let outcomes := send_outcomes env connected_producer three_records world0 in
  let N := Z.of_nat (List.length three_records) in
  let K := Z.of_nat (count_returned false outcomes) in
  N - K = Z.of_nat (count_returned true outcomes)
  /\ exists w' evs,
       send_batch env connected_producer three_records world0 = (Ok (N - K), w')
       /\ trace w' = (evs ++ [EvFlush])%list.
Proof.
  apply (@send_batch_returns_success_count
           (sample_env (Ok []) true (fun n => negb (Nat.eqb n 1)))
           connected_producer {| kp_bootstrap_servers := ["localhost:9092"] |}
           three_records world0);
    reflexivity.
Defined.

(** C1 as stated fails: of N = 3 records, K = 1 send fails and 2 succeed,
    and [send_batch] returns 2, not 1. *)
Lemma send_batch_returns_failure_count_counterexample :
  let env := sample_env (Ok []) true (fun n => negb (Nat.eqb n 1)) in
  let outcomes := send_outcomes env connected_producer three_records world0 in
  outcomes = [Ok true; Ok false; Ok true]
  /\ count_returned false outcomes = 1%nat
  /\ fst (send_batch env connected_producer three_records world0) = Ok 2
  /\ fst (send_batch env connected_producer three_records world0)
     <> Ok (Z.of_nat (count_returned false outcomes)).
Proof.
  repeat split; try reflexivity.
  vm_compute. discriminate.
Qed.

(** ** The key of a published record *)

Lemma send_listing_trace (env : Env) (self : CarDataKafkaProducer)
    (p : KafkaProducer) (listing : dict) (w : world) (k : option string) :
  producer self = Some p ->
  key_serializer (dict_get listing "listing_id" (VStr "unknown")) = Ok k ->
  json_serializable (VDict listing) = true ->
  sent_with_key env self listing w k.
Proof.
  intros Hp Hk Hv.
  unfold sent_with_key, send_listing, KafkaProducer_send, Future_get, value_serializer.
  unfold_monad. rewrite Hp, Hk, Hv. simpl.
  destruct (kafka_deliver env (n_deliver w) _) as [e|]; simpl; [|reflexivity].
  destruct (isinstance_KafkaError e); reflexivity.
Qed.

(** C2, as the code has it: a record whose [listing_id] is a non-empty
    string is sent with that string as key; an empty [listing_id] is sent
    without key; a record with no [listing_id] is sent with the key
    ['unknown']. *)
Theorem send_listing_message_key
    (env : Env) (self : CarDataKafkaProducer) (p : KafkaProducer)
    (listing : dict) (w : world) :
  producer self = Some p ->
  json_serializable (VDict listing) = true ->
  (forall s, dict_lookup listing "listing_id" = Some (VStr s) -> s <> EmptyString ->
     sent_with_key env self listing w (Some s))
  /\ (dict_lookup listing "listing_id" = Some (VStr EmptyString) ->
      sent_with_key env self listing w None)
  /\ (dict_lookup listing "listing_id" = None ->
      sent_with_key env self listing w (Some "unknown")).
Proof.
  intros Hp Hv. split; [|split].
  - intros s Hs Hne. apply (send_listing_trace env self listing w Hp); [|exact Hv].
    unfold dict_get, key_serializer. rewrite Hs. simpl.
    apply String.eqb_neq in Hne. rewrite Hne. reflexivity.
  - intros Hs. apply (send_listing_trace env self listing w Hp); [|exact Hv].
    unfold dict_get. rewrite Hs. reflexivity.
  - intros Hs. apply (send_listing_trace env self listing w Hp); [|exact Hv].
    unfold dict_get. rewrite Hs. reflexivity.
Qed.

Lemma send_listing_message_key_witness :
  sent_with_key (sample_env (Ok []) true (fun _ => true)) connected_producer
    [("listing_id", VStr "4711"); ("title", VStr "Volvo V70")] world0
    (Some "4711").
Proof.
  apply (proj1 (@send_listing_message_key
                  (sample_env (Ok []) true (fun _ => true)) connected_producer
                  {| kp_bootstrap_servers := ["localhost:9092"] |}
                  [("listing_id", VStr "4711"); ("title", VStr "Volvo V70")] world0
                  eq_refl eq_refl) "4711");
    [reflexivity | discriminate].
Defined.

(** C2 as stated fails twice: a record without [listing_id] goes out with
    the key ['unknown'] and not without key, and a record whose
    [listing_id] is the empty string goes out without key and not with
    the empty string as key. *)
Lemma send_listing_message_key_counterexample :
  let env := sample_env (Ok []) true (fun _ => true) in
  let no_id := [("title", VStr "Volvo V70")] in
  let empty_id := [("listing_id", VStr EmptyString); ("title", VStr "Volvo V70")] in
  dict_lookup no_id "listing_id" = None
  /\ sent_with_key env connected_producer no_id world0 (Some "unknown")
  /\ ~ sent_with_key env connected_producer no_id world0 None
  /\ sent_with_key env connected_producer empty_id world0 None
  /\ ~ sent_with_key env connected_producer empty_id world0 (Some EmptyString).
Proof.
  repeat split; try reflexivity; vm_compute; discriminate.
Qed.

(** ** Which failures [send_listing] turns into [False] *)

Lemma key_serializer_raises (k : pyval) (e : exn) :
  key_serializer k = Raise e -> isinstance_KafkaError e = false.
Proof.
  unfold key_serializer.
  destruct (py_truthy k); [|discriminate].
  destruct k; intros H; inversion H; reflexivity.
Qed.

Lemma value_serializer_raises (v : dict) (e : exn) :
  value_serializer v = Raise e -> isinstance_KafkaError e = false.
Proof.
  unfold value_serializer.
  destruct (json_serializable (VDict v)); intros H; inversion H; reflexivity.
Qed.

(** C3, as the code has it: [send_listing] returns false when the
    submission or the wait for the acknowledgment raises a [KafkaError];
    an exception of the key or value serializer, and any other exception
    that is not a [KafkaError], leaves [send_listing] as it is. *)
Theorem send_listing_catches_only_KafkaError
    (env : Env) (self : CarDataKafkaProducer) (p : KafkaProducer)
    (listing : dict) (w : world) :
  producer self = Some p ->
  let key := dict_get listing "listing_id" (VStr "unknown") in
  (forall e, key_serializer key = Raise e ->
     send_listing env self listing w = (Raise e, w))
  /\ (forall k e, key_serializer key = Ok k -> value_serializer listing = Raise e ->
      send_listing env self listing w = (Raise e, w))
  /\ (forall k v, key_serializer key = Ok k -> value_serializer listing = Ok v ->
      fst (send_listing env self listing w)
      = match kafka_deliver env (n_deliver w)
                {| msg_topic := topic self; msg_key := k; msg_value := v |} with
        | None => Ok true
        | Some e => if isinstance_KafkaError e then Ok false else Raise e
        end).
Proof.
  intros Hp key. split; [|split].
  - intros e Hk. pose proof (key_serializer_raises _ Hk) as He.
    unfold send_listing, KafkaProducer_send. unfold_monad.
    fold key. rewrite Hp, Hk. simpl. rewrite He. reflexivity.
  - intros k e Hk Hv. pose proof (value_serializer_raises _ Hv) as He.
    unfold send_listing, KafkaProducer_send. unfold_monad.
    fold key. rewrite Hp, Hk, Hv. simpl. rewrite He. reflexivity.
  - intros k v Hk Hv.
    unfold send_listing, KafkaProducer_send, Future_get. unfold_monad.
    fold key. rewrite Hp, Hk, Hv. simpl.
    destruct (kafka_deliver env (n_deliver w) _) as [e|]; simpl; [|reflexivity].
    destruct (isinstance_KafkaError e); reflexivity.
Qed.

Lemma send_listing_catches_only_KafkaError_witness :
  fst (send_listing (sample_env (Ok []) true (fun _ => false)) connected_producer
         [("listing_id", VStr "4711")] world0)
  = Ok false.
Proof.
  apply (proj2 (proj2 (@send_listing_catches_only_KafkaError
                         (sample_env (Ok []) true (fun _ => false)) connected_producer
                         {| kp_bootstrap_servers := ["localhost:9092"] |}
                         [("listing_id", VStr "4711")] world0 eq_refl))
           (Some "4711") [("listing_id", VStr "4711")]);
    reflexivity.
Defined.

(** C3 as stated fails: a record that carries an object [json.dumps]
    cannot encode makes the value serializer raise [TypeError], and the
    exception leaves [send_listing]; so does the [AttributeError] of the
    key serializer on a [listing_id] that is a number. *)
Lemma send_listing_never_raises_counterexample :
  let env := sample_env (Ok []) true (fun _ => true) in
  fst (send_listing env connected_producer
         [("listing_id", VStr "4711"); ("make", VObj "Make")] world0)
  = Raise TypeError
  /\ fst (send_listing env connected_producer [("listing_id", VInt 4711)] world0)
     = Raise AttributeError.
Proof.
  split; reflexivity.
Qed.

(** ** Connecting, and the dry run *)

Lemma connect_fails_three_times (env : Env) (self : CarDataKafkaProducer) (w : world) :
  (forall i, (i < 3)%nat -> kafka_connect env (n_connect w + i) = Some KafkaError) ->
  exists w',
    _connect env self w = (Raise KafkaError, w')
    /\ trace w' = (trace w ++ three_attempts (bootstrap_servers self))%list.
Proof.
  intros Hfail.
  pose proof (Hfail 0%nat ltac:(lia)) as H0.
  pose proof (Hfail 1%nat ltac:(lia)) as H1.
  pose proof (Hfail 2%nat ltac:(lia)) as H2.
  rewrite Nat.add_0_r in H0.
  replace (n_connect w + 1)%nat with (S (n_connect w)) in H1 by lia.
  replace (n_connect w + 2)%nat with (S (S (n_connect w))) in H2 by lia.
  unfold _connect, three_attempts. simpl.
  unfold KafkaProducer_new. unfold_monad. simpl.
  rewrite H0. simpl. rewrite H1. simpl. rewrite H2. simpl.
  eexists. split; [reflexivity|]. simpl.
  rewrite <- !app_assoc. reflexivity.
Qed.

Lemma dry_run_samples_ready (listings : list dict) :
  Forall sample_ready listings -> dry_run_samples listings = Ok tt.
Proof.
  induction 1 as [|l rest (Ht & Hp & Hy) _ IH]; simpl; [reflexivity|].
  unfold dict_getitem.
  destruct (dict_lookup l "title"); [|congruence].
  destruct (dict_lookup l "price"); [|congruence].
  destruct (dict_lookup l "year"); [|congruence].
  exact IH.
Qed.

Lemma Forall_firstn {A} (P : A -> Prop) (n : nat) (l : list A) :
  Forall P l -> Forall P (firstn n l).
Proof.
  intros H. revert n. induction H as [|x l Hx _ IH]; intros [|n]; simpl;
    constructor; auto.
Qed.

(** Without a producer the loop of [main] runs every search, raises
    nothing and never reaches the Kafka client. *)
Lemma main_loop_dry_run (env : Env) (configs : list (string * search_kwargs)) :
  forall (all_listings : list dict) (w : world),
  exists all_listings' w' evs,
    main_loop env None configs all_listings w = (Ok all_listings', w')
    /\ trace w' = (trace w ++ evs)%list
    /\ Forall (fun e => is_kafka_event e = false) evs
    /\ filter is_search_event evs
       = map (fun c => EvSearch (search_args (snd c))) configs.
Proof.
  induction configs as [|[name kw] rest IH]; intros all_listings w.
  - exists all_listings, w, []. simpl. rewrite app_nil_r.
    repeat split; constructor.
  - destruct (search_cars_returns env kw w) as (ls & w1 & Hrun & Htr & Hready).
    cbn [main_loop]. unfold bind at 1. rewrite Hrun.
    destruct ls as [|l ls].
    + destruct (IH all_listings (emit (EvSleep 2) w1))
        as (all' & w' & evs & Hloop & Htr' & Hk & Hs).
      exists all', w', (EvSearch (search_args kw) :: EvSleep 2 :: evs).
      unfold_monad. cbv beta iota. rewrite Hloop. split; [reflexivity|].
      split; [|split].
      * rewrite Htr'. simpl. rewrite Htr, <- !app_assoc. reflexivity.
      * repeat constructor. exact Hk.
      * simpl. rewrite Hs. reflexivity.
    + destruct (IH (all_listings ++ l :: ls)%list
                  (emit (EvSleep 2) (emit (EvDryRun (List.length (l :: ls))) w1)))
        as (all' & w' & evs & Hloop & Htr' & Hk & Hs).
      exists all', w',
        (EvSearch (search_args kw) :: EvDryRun (List.length (l :: ls))
           :: EvSleep 2 :: evs).
      unfold dry_run. unfold_monad. cbv beta iota.
      rewrite (dry_run_samples_ready (Forall_firstn 3 Hready)).
      cbv beta iota. rewrite Hloop. split; [reflexivity|].
      split; [|split].
      * rewrite Htr'. simpl. rewrite Htr, <- !app_assoc. reflexivity.
      * repeat constructor. exact Hk.
      * simpl. rewrite Hs. reflexivity.
Qed.

(** C5: when each of the three attempts to connect fails with a
    [KafkaError], the construction of the publisher makes exactly three
    attempts with a sleep of 5 between two of them and then raises the
    error; [main] catches it, goes on without a producer and runs its
    three searches without a single call to the Kafka client. *)
Theorem connect_retries_three_times_then_dry_run
    (env : Env) (servers : option (list string)) (topic_name : string) (w : world) :
  (forall i, (i < 3)%nat -> kafka_connect env (n_connect w + i) = Some KafkaError) ->
  (exists w1,
     CarDataKafkaProducer_init env servers topic_name w = (Raise KafkaError, w1)
     /\ trace w1 = (trace w ++ three_attempts (servers_or_default servers))%list)
  /\ exists w1 all_listings w2 evs,
       init_kafka_producer env w = (Ok None, w1)
       /\ trace w1 = (trace w ++ three_attempts ["localhost:9092"])%list
       /\ collect_listings env w = (Ok (None, all_listings), w2)
       /\ trace w2 = (trace w1 ++ evs)%list
       /\ Forall (fun e => is_kafka_event e = false) evs
       /\ filter is_search_event evs
          = map (fun c => EvSearch (search_args (snd c))) search_configs.
Proof.
  intros Hfail. split.
  - unfold CarDataKafkaProducer_init.
    match goal with
    | |- context [_connect env ?self w] =>
        destruct (connect_fails_three_times env self w Hfail) as (w1 & Hc & Htr);
        exists w1
    end.
    split; assumption.
  - assert (Hinit : exists w1, init_kafka_producer env w = (Ok None, w1)
                      /\ trace w1 = (trace w ++ three_attempts ["localhost:9092"])%list).
    { destruct (connect_fails_three_times env
                  {| bootstrap_servers := ["localhost:9092"];
                     topic := "raw-car-listings";
                     producer := None |} w Hfail) as (w1 & Hc & Htr).
      exists w1. unfold init_kafka_producer, CarDataKafkaProducer_init.
      unfold_monad. cbv beta iota. cbn [servers_or_default]. rewrite Hc.
      split; [reflexivity | exact Htr]. }
    destruct Hinit as (w1 & Hinit & Htr1).
    destruct (main_loop_dry_run env search_configs [] w1)
      as (all' & w2 & evs & Hloop & Htr2 & Hk & Hs).
    exists w1, all', w2, evs.
    split; [exact Hinit|]. split; [exact Htr1|]. split.
    + unfold collect_listings. unfold bind at 1. rewrite Hinit.
      unfold bind, ret. rewrite Hloop. reflexivity.
    + repeat split; assumption.
Qed.

Lemma connect_retries_three_times_then_dry_run_witness :
  let env := sample_env (Ok [bare_ad (Some 4711)]) false (fun _ => true) in
  (exists w1,
     CarDataKafkaProducer_init env None "raw-car-listings" world0
     = (Raise KafkaError, w1)
     /\ trace w1 = (trace world0 ++ three_attempts (servers_or_default None))%list)
  /\ exists w1 all_listings w2 evs,
       init_kafka_producer env world0 = (Ok None, w1)
       /\ trace w1 = (trace world0 ++ three_attempts ["localhost:9092"])%list
       /\ collect_listings env world0 = (Ok (None, all_listings), w2)
       /\ trace w2 = (trace w1 ++ evs)%list
       /\ Forall (fun e => is_kafka_event e = false) evs
       /\ filter is_search_event evs
          = map (fun c => EvSearch (search_args (snd c))) search_configs.
Proof.
  apply (@connect_retries_three_times_then_dry_run
           (sample_env (Ok [bare_ad (Some 4711)]) false (fun _ => true))
           None "raw-car-listings" world0).
  intros i Hi. reflexivity.
Defined.

(** ** Images *)

Lemma parse_ad_details_record (env : Env) (ad : RawAd) (w w' : world) (d : dict) :
  _parse_ad_details env ad w = (Ok (Some d), w') ->
  exists imgs,
    _extract_all_images ad = Ok imgs
    /\ dict_lookup d "images" = Some imgs
    /\ dict_lookup d "image_url" = None.
Proof.
  unfold _parse_ad_details, parse_ad_details_body, utcnow_isoformat.
  unfold_monad.
  destruct (ad_id ad) as [id|]; simpl; [|discriminate].
  destruct (price_value ad) as [p|]; simpl; [|discriminate].
  destruct (_extract_location ad) as [loc|]; simpl; [|discriminate].
  destruct (_extract_all_images ad) as [imgs|]; simpl; [|discriminate].
  intros H. inversion H; subst. exists imgs.
  split; [reflexivity|]. split; lookup_through_sets; reflexivity.
Qed.

Lemma parse_ad_record (env : Env) (ad : RawAd) (w w' : world) (d : dict) :
  _parse_ad env ad w = (Ok (Some d), w') ->
  exists img,
    _extract_image ad = Ok img
    /\ dict_lookup d "image_url" = Some img
    /\ dict_lookup d "images" = None.
Proof.
  unfold _parse_ad, parse_ad_body, utcnow_isoformat.
  unfold_monad.
  destruct (ad_id ad) as [id|]; simpl; [|discriminate].
  destruct (price_value ad) as [p|]; simpl; [|discriminate].
  destruct (_extract_location ad) as [loc|]; simpl; [|discriminate].
  destruct (_extract_image ad) as [img|]; simpl; [|discriminate].
  intros H. inversion H; subst. exists img.
  split; [reflexivity|]. split; lookup_through_sets; reflexivity.
Qed.

(** ** Statistics *)

(** C9: over the three records of the scenario the statistics block
    reports the mean price 75000, the mean of the two prices that are not
    null, and the year range 2005 to 2010, the bounds of the two years
    that are not null. *)
Theorem statistics_of_scenario (w : world) :
  report_statistics scenario_records w
  = (Ok tt, emit (EvYearRange (VInt 2005) (VInt 2010))
              (emit (EvAveragePrice (75000 # 1)) w)).
Proof.
  reflexivity.
Qed.

Lemma sum_prices_none (all_listings : list dict) (acc : Z) :
  forallb (fun l => negb (has_price l)) all_listings = true ->
  sum_prices all_listings acc = Ok acc.
Proof.
  induction all_listings as [|l rest IH]; simpl; intros H; [reflexivity|].
  apply andb_prop in H. destruct H as [Hl Hrest].
  apply negb_true_iff in Hl. rewrite Hl. apply IH. exact Hrest.
Qed.

Lemma count_prices_none (all_listings : list dict) :
  forallb (fun l => negb (has_price l)) all_listings = true ->
  count_prices all_listings = 0%nat.
Proof.
  unfold count_prices.
  induction all_listings as [|l rest IH]; simpl; intros H; [reflexivity|].
  apply andb_prop in H. destruct H as [Hl Hrest].
  apply negb_true_iff in Hl. rewrite Hl. apply IH. exact Hrest.
Qed.

(** C10: when listings were collected and none has a truthy price, the
    mean price is 0 divided by 0: the statistics block raises
    [ZeroDivisionError] before it reports anything, and the exception
    ends [main]; only an empty list of listings skips the division.  A
    record whose price is missing, null or 0 adds nothing to the sum and
    nothing to the count. *)
Theorem mean_price_divides_by_zero
    (env : Env) (all_listings : list dict) (w : world) :
  all_listings <> [] ->
  forallb (fun l => negb (has_price l)) all_listings = true ->
  report_statistics all_listings w = (Raise ZeroDivisionError, w)
  /\ report_statistics [] w = (Ok tt, w)
  /\ (forall kp w0,
        collect_listings env w0 = (Ok (kp, all_listings), w) ->
        main env w0 = (Raise ZeroDivisionError, w))
  /\ (forall l rest acc,
        dict_lookup l "price" = None
        \/ dict_lookup l "price" = Some VNone
        \/ dict_lookup l "price" = Some (VInt 0) ->
        sum_prices (l :: rest) acc = sum_prices rest acc
        /\ count_prices (l :: rest) = count_prices rest).
Proof.
  intros Hne Hnone.
  assert (Hstat : report_statistics all_listings w = (Raise ZeroDivisionError, w)).
  { unfold report_statistics. destruct all_listings as [|l rest]; [congruence|].
    unfold_monad. rewrite (sum_prices_none _ 0 Hnone), (count_prices_none _ Hnone).
    reflexivity. }
  split; [exact Hstat|]. split; [reflexivity|]. split.
  - intros kp w0 Hcollect. unfold main. unfold bind at 1. rewrite Hcollect.
    unfold bind. simpl fst. simpl snd. rewrite Hstat. reflexivity.
  - intros l rest acc Hprice.
    assert (Hl : has_price l = false).
    { unfold has_price, dict_get.
      destruct Hprice as [H | [H | H]]; rewrite H; reflexivity. }
    unfold count_prices. simpl. rewrite Hl. split; reflexivity.
Qed.

Lemma mean_price_divides_by_zero_witness :
  let env := sample_env (Ok [bare_ad (Some 4711)]) false (fun _ => true) in
  main env world0 = (Raise ZeroDivisionError, snd (collect_listings env world0)).
Proof.
  refine (proj1 (proj2 (proj2 (@mean_price_divides_by_zero
            (sample_env (Ok [bare_ad (Some 4711)]) false (fun _ => true))
            (collected (collect_listings
               (sample_env (Ok [bare_ad (Some 4711)]) false (fun _ => true)) world0))
            (snd (collect_listings
               (sample_env (Ok [bare_ad (Some 4711)]) false (fun _ => true)) world0))
            _ _))) None world0 _).
  - vm_compute. discriminate.
  - vm_compute. reflexivity.
  - vm_compute. reflexivity.
Defined.

(** * Further properties of the fetcher *)

(** What a successful run of [_parse_ad] went through. *)
Lemma parse_ad_inv (env : Env) (ad : RawAd) (w w' : world) (d : dict) :
  _parse_ad env ad w = (Ok (Some d), w') ->
  exists id p loc img,
    ad_id ad = Some id
    /\ price_value ad = Ok p
    /\ _extract_location ad = Ok loc
    /\ _extract_image ad = Ok img
    /\ w' = tick w
    /\ d = set_if_hasattr
            (set_if_hasattr
               (set_if_hasattr
                  (set_if_hasattr
                     [ ("listing_id", VStr (py_str id));
                       ("title", getattr (subject ad) (VStr "Unknown"));
                       ("price", p);
                       ("year", getattr (year ad) VNone);
                       ("mileage", getattr (mileage ad) VNone);
                       ("location", loc);
                       ("url", VStr ("https://www.blocket.se/" ++ py_str id));
                       ("image_url", img);
                       ("scraped_at", VStr (utcnow env (n_clock w)));
                       ("source", VStr "blocket");
                       ("category", VStr "car") ]
                     "make" (make ad))
                  "model" (model ad))
               "fuel_type" (fuel_type ad))
            "transmission" (transmission ad).
Proof.
  unfold _parse_ad, parse_ad_body, utcnow_isoformat. unfold_monad.
  destruct (ad_id ad) as [id|]; simpl; [|discriminate].
  destruct (price_value ad) as [p|]; simpl; [|discriminate].
  destruct (_extract_location ad) as [loc|]; simpl; [|discriminate].
  destruct (_extract_image ad) as [img|]; simpl; [|discriminate].
  intros H. inversion H; subst. exists id, p, loc, img.
  repeat split; reflexivity.
Qed.

(** What a successful run of [_parse_ad_details] went through. *)
Lemma parse_ad_details_inv (env : Env) (ad : RawAd) (w w' : world) (d : dict) :
  _parse_ad_details env ad w = (Ok (Some d), w') ->
  exists id p loc imgs,
    ad_id ad = Some id
    /\ price_value ad = Ok p
    /\ _extract_location ad = Ok loc
    /\ _extract_all_images ad = Ok imgs
    /\ w' = tick w
    /\ d = set_if_hasattr
            (set_if_hasattr
               (set_if_hasattr
                  (set_if_hasattr
                     (set_if_hasattr
                        (set_if_hasattr
                           (set_if_hasattr
                              [ ("listing_id", VStr (py_str id));
                                ("title", getattr (subject ad) (VStr "Unknown"));
                                ("description", getattr (body ad) (VStr EmptyString));
                                ("price", p);
                                ("year", getattr (year ad) VNone);
                                ("mileage", getattr (mileage ad) VNone);
                                ("location", loc);
                                ("url", VStr ("https://www.blocket.se/" ++ py_str id));
                                ("images", imgs);
                                ("posted_date", getattr (list_time ad) VNone);
                                ("scraped_at", VStr (utcnow env (n_clock w)));
                                ("source", VStr "blocket");
                                ("category", VStr "car") ]
                              "make" (make ad))
                           "model" (model ad))
                        "fuel_type" (fuel_type ad))
                     "transmission" (transmission ad))
                  "body_type" (body_type ad))
               "color" (color ad))
            "engine_power" (engine_power ad).
Proof.
  unfold _parse_ad_details, parse_ad_details_body, utcnow_isoformat. unfold_monad.
  destruct (ad_id ad) as [id|]; simpl; [|discriminate].
  destruct (price_value ad) as [p|]; simpl; [|discriminate].
  destruct (_extract_location ad) as [loc|]; simpl; [|discriminate].
  destruct (_extract_all_images ad) as [imgs|]; simpl; [|discriminate].
  intros H. inversion H; subst. exists id, p, loc, imgs.
  repeat split; reflexivity.
Qed.

Lemma str_int_not_empty (n : Z) : str_int n <> EmptyString.
Proof.
  unfold str_int, NilZero.string_of_int.
  destruct (Z.to_int n) as [d|d]; [|discriminate].
  destruct d; discriminate.
Qed.

Ltac either_path H :=
  let id := fresh "id" in
  let p := fresh "p" in
  let loc := fresh "loc" in
  let img := fresh "img" in
  let Hid := fresh "Hid" in
  let Hp := fresh "Hp" in
  let Hloc := fresh "Hloc" in
  let Himg := fresh "Himg" in
  let Hw := fresh "Hw" in
  let Hd := fresh "Hd" in
  destruct H as [H | H];
  [ destruct (parse_ad_inv _ _ _ H)
      as (id & p & loc & img & Hid & Hp & Hloc & Himg & Hw & Hd)
  | destruct (parse_ad_details_inv _ _ _ H)
      as (id & p & loc & img & Hid & Hp & Hloc & Himg & Hw & Hd) ];
  subst.

(** X1: a record of either path carries as [listing_id] the text
    [str] makes of the ad's [ad_id], whatever it is: the decimal digits of
    an [int], ['None'] for [None], a string as it is, the empty one
    included; and its [url] is the base address followed by that same
    text. *)
Theorem record_listing_id_and_url
    (env : Env) (ad : RawAd) (w w' : world) (d : dict) :
  _parse_ad env ad w = (Ok (Some d), w')
  \/ _parse_ad_details env ad w = (Ok (Some d), w') ->
  dict_lookup d "listing_id" = option_map (fun id => VStr (py_str id)) (ad_id ad)
  /\ dict_lookup d "url"
     = option_map (fun id => VStr ("https://www.blocket.se/" ++ py_str id)) (ad_id ad)
  /\ ad_id ad <> None.
Proof.
  intros H. either_path H; rewrite Hid; simpl option_map;
    (split; [lookup_through_sets; reflexivity|]);
    (split; [lookup_through_sets; reflexivity|]); discriminate.
Qed.

Lemma record_listing_id_and_url_witness :
  dict_lookup nameless_summary "listing_id" = Some (VStr EmptyString)
  /\ dict_lookup nameless_summary "url" = Some (VStr "https://www.blocket.se/").
Proof.
  pose proof (@record_listing_id_and_url volvo_env nameless_ad world0 (tick world0)
                nameless_summary (or_introl eq_refl)) as H.
  split; [exact (proj1 H) | exact (proj1 (proj2 H))].
Defined.

(** X2: the keys of a summary record are the eleven fixed keys, in the
    order written, followed by those of make, model, fuel_type and
    transmission that the ad has; each of the four is in the record
    exactly when the ad has it, with the ad's value. *)
Theorem summary_record_keys
    (env : Env) (ad : RawAd) (w w' : world) (d : dict) :
  _parse_ad env ad w = (Ok (Some d), w') ->
  map fst d = (summary_fixed_keys ++ exposed (summary_optional ad))%list
  /\ dict_lookup d "make" = make ad
  /\ dict_lookup d "model" = model ad
  /\ dict_lookup d "fuel_type" = fuel_type ad
  /\ dict_lookup d "transmission" = transmission ad.
Proof.
  intros H.
  destruct (parse_ad_inv _ _ _ H) as (id & p & loc & img & _ & _ & _ & _ & _ & Hd).
  subst d. unfold exposed, summary_optional, summary_fixed_keys.
  destruct (make ad), (model ad), (fuel_type ad), (transmission ad);
    repeat split; reflexivity.
Qed.

Lemma summary_record_keys_witness :
  map fst volvo_summary = (summary_fixed_keys ++ ["make"; "fuel_type"])%list
  /\ dict_lookup volvo_summary "make" = Some (VStr "Volvo")
  /\ dict_lookup volvo_summary "model" = None.
Proof.
  pose proof (@summary_record_keys volvo_env volvo_ad world0 (tick world0)
                volvo_summary eq_refl) as H.
  split; [exact (proj1 H)|].
  split; [exact (proj1 (proj2 H)) | exact (proj1 (proj2 (proj2 H)))].
Defined.

(** X3: the keys of a detail record are the thirteen fixed keys followed
    by those of the seven optional attributes that the ad has, and an
    optional attribute that the ad lacks is not in the record. *)
Theorem detail_record_keys
    (env : Env) (ad : RawAd) (w w' : world) (d : dict) :
  _parse_ad_details env ad w = (Ok (Some d), w') ->
  map fst d = (detail_fixed_keys ++ exposed (detail_optional ad))%list
  /\ dict_lookup d "make" = make ad
  /\ dict_lookup d "model" = model ad
  /\ dict_lookup d "fuel_type" = fuel_type ad
  /\ dict_lookup d "transmission" = transmission ad
  /\ dict_lookup d "body_type" = body_type ad
  /\ dict_lookup d "color" = color ad
  /\ dict_lookup d "engine_power" = engine_power ad.
Proof.
  intros H.
  destruct (parse_ad_details_inv _ _ _ H)
    as (id & p & loc & imgs & _ & _ & _ & _ & _ & Hd).
  subst d. unfold exposed, detail_optional, summary_optional, detail_fixed_keys.
  destruct (make ad), (model ad), (fuel_type ad), (transmission ad),
    (body_type ad), (color ad), (engine_power ad);
    repeat split; reflexivity.
Qed.

Lemma detail_record_keys_witness :
  map fst volvo_details = (detail_fixed_keys ++ ["make"; "fuel_type"; "color"])%list
  /\ dict_lookup volvo_details "color" = Some (VStr "Blue")
  /\ dict_lookup volvo_details "engine_power" = None.
Proof.
  pose proof (@detail_record_keys volvo_env volvo_ad world0 (tick world0)
                volvo_details eq_refl) as H.
  split; [exact (proj1 H)|].
  destruct H as (_ & _ & _ & _ & _ & _ & Hcolor & Hpower).
  split; [exact Hcolor | exact Hpower].
Defined.

(** X4: in a record of either path the price is the entry ['value'] of
    the ad's price dictionary, or null when that dictionary has no such
    entry or the ad has no price at all; an ad whose price is anything but
    a dictionary gives no record. *)
Theorem record_price
    (env : Env) (ad : RawAd) (w w' : world) (d : dict) :
  _parse_ad env ad w = (Ok (Some d), w')
  \/ _parse_ad_details env ad w = (Ok (Some d), w') ->
  dict_lookup d "price"
  = Some match price ad with
         | Some (VDict p) => dict_get p "value" VNone
         | _ => VNone
         end
  /\ forall v, price ad = Some v -> is_dict v = true.
Proof.
  intros H. either_path H;
    (split; [lookup_through_sets|]);
    unfold price_value in Hp; destruct (price ad) as [[]|]; simpl in Hp;
    try discriminate; try (inversion Hp; reflexivity);
    intros v Hv; inversion Hv; reflexivity.
Qed.

Lemma record_price_witness :
  dict_lookup volvo_summary "price" = Some (VInt 45000).
Proof.
  exact (proj1 (@record_price volvo_env volvo_ad world0 (tick world0)
                  volvo_summary (or_introl eq_refl))).
Defined.

Lemma extract_location_ok (ad : RawAd) (loc : pyval) :
  _extract_location ad = Ok loc ->
  loc = match location ad with
        | Some (VDict (kv :: l)) => dict_get (kv :: l) "name" (VStr "Unknown")
        | _ => VStr "Unknown"
        end
  /\ absent_falsy_or_dict (location ad) = true.
Proof.
  unfold _extract_location, absent_falsy_or_dict.
  destruct (location ad) as [v|]; simpl.
  - destruct (py_truthy v) eqn:T.
    + destruct v as [| b | z | s | l | [|kv l] | c]; simpl; try discriminate.
      intros H. inversion H. split; reflexivity.
    + intros H. inversion H.
      destruct v as [| b | z | s | l | [|kv l] | c];
        simpl in T |- *; try discriminate; try rewrite T; split; reflexivity.
  - intros H. inversion H. split; reflexivity.
Qed.

(** X5: in a record of either path the location is the entry ['name'] of
    the ad's location dictionary, and ['Unknown'] when that dictionary has
    no name or when the location is missing or falsy; an ad whose location
    is truthy and not a dictionary gives no record. *)
Theorem record_location
    (env : Env) (ad : RawAd) (w w' : world) (d : dict) :
  _parse_ad env ad w = (Ok (Some d), w')
  \/ _parse_ad_details env ad w = (Ok (Some d), w') ->
  dict_lookup d "location"
  = Some match location ad with
         | Some (VDict (kv :: l)) => dict_get (kv :: l) "name" (VStr "Unknown")
         | _ => VStr "Unknown"
         end
  /\ absent_falsy_or_dict (location ad) = true.
Proof.
  intros H. either_path H;
    destruct (extract_location_ok _ Hloc) as [Hl Hs];
    (split; [lookup_through_sets; rewrite Hl; reflexivity | exact Hs]).
Qed.

Lemma record_location_witness :
  dict_lookup volvo_details "location" = Some (VStr "Uppsala").
Proof.
  exact (proj1 (@record_location volvo_env volvo_ad world0 (tick world0)
                  volvo_details (or_intror eq_refl))).
Defined.

Lemma price_value_is_Ok (ad : RawAd) :
  is_Ok (price_value ad) = match price ad with None => true | Some v => is_dict v end.
Proof.
  unfold price_value. destruct (price ad) as [[]|]; reflexivity.
Qed.

Lemma extract_location_is_Ok (ad : RawAd) :
  is_Ok (_extract_location ad) = absent_falsy_or_dict (location ad).
Proof.
  unfold _extract_location, absent_falsy_or_dict.
  destruct (location ad) as [v|]; [|reflexivity]. simpl.
  destruct v as [| b | z | s | l | [|kv l] | c]; simpl; try reflexivity.
  - destruct b; reflexivity.
  - destruct (z =? 0); reflexivity.
  - destruct (s =? EmptyString)%string; reflexivity.
  - destruct l; reflexivity.
Qed.

Lemma extract_image_is_Ok (ad : RawAd) :
  is_Ok (_extract_image ad)
  = match images ad with
    | None => true
    | Some (VList (img :: _)) => is_dict img
    | Some v => negb (py_truthy v)
    end.
Proof.
  unfold _extract_image.
  destruct (images ad) as [v|]; [|reflexivity]. simpl.
  destruct v as [| b | z | s | [|img l] | [|kv l] | c]; simpl; try reflexivity.
  - destruct b; reflexivity.
  - destruct (z =? 0); reflexivity.
  - destruct s; reflexivity.
  - destruct img; reflexivity.
Qed.

Lemma image_urls_is_Ok (imgs : list pyval) :
  is_Ok (image_urls imgs) = forallb is_dict imgs.
Proof.
  induction imgs as [|img rest IH]; [reflexivity|].
  destruct img; try reflexivity.
  cbn [image_urls py_get forallb is_dict andb].
  destruct (py_truthy (dict_get d "url" VNone)); [|exact IH].
  destruct (image_urls rest); simpl in IH |- *; exact IH.
Qed.

Lemma extract_all_images_is_Ok (ad : RawAd) :
  is_Ok (_extract_all_images ad)
  = match images ad with
    | None => true
    | Some (VList (img :: rest)) => forallb is_dict (img :: rest)
    | Some v => negb (py_truthy v)
    end.
Proof.
  unfold _extract_all_images.
  destruct (images ad) as [v|]; [|reflexivity].
  destruct v as [| b | z | s | [|img l] | [|kv l] | c]; try reflexivity.
  - destruct b; reflexivity.
  - cbn. destruct (z =? 0); reflexivity.
  - destruct s; reflexivity.
  - cbn [hasattr getattr py_truthy andb py_iter].
    rewrite <- (image_urls_is_Ok (img :: l)).
    destruct (image_urls (img :: l)); reflexivity.
Qed.

(** X6: [_parse_ad] never raises, and it returns a record exactly for the
    ads that have an [ad_id], a price that is missing or a dictionary, a
    location that is missing, falsy or a dictionary, and images that are
    missing, falsy or a list whose first entry is a dictionary; it reads
    the clock exactly when it returns a record. *)
Theorem summary_record_iff_shape (env : Env) (ad : RawAd) (w : world) :
  is_Ok (fst (_parse_ad env ad w)) = true
  /\ yields_record (_parse_ad env ad w) = summary_shape ad
  /\ snd (_parse_ad env ad w) = if summary_shape ad then tick w else w.
Proof.
  assert (Hs : normalizes ad = summary_shape ad).
  { unfold normalizes, summary_shape.
    rewrite price_value_is_Ok, extract_location_is_Ok, extract_image_is_Ok.
    destruct (ad_id ad); reflexivity. }
  rewrite <- Hs. destruct (normalizes ad) eqn:N.
  - destruct (parse_ad_normalizes env ad w N) as (d & Hd & _).
    unfold yields_record. rewrite Hd. repeat split; reflexivity.
  - unfold yields_record. rewrite (parse_ad_does_not_normalize env ad w N).
    repeat split; reflexivity.
Qed.

Lemma parse_ad_details_by_shape (env : Env) (ad : RawAd) (w : world) :
  is_Ok (fst (_parse_ad_details env ad w)) = true
  /\ yields_record (_parse_ad_details env ad w) = detail_shape ad
  /\ snd (_parse_ad_details env ad w) = if detail_shape ad then tick w else w.
Proof.
  unfold detail_shape.
  rewrite <- price_value_is_Ok, <- extract_location_is_Ok, <- extract_all_images_is_Ok.
  unfold yields_record, _parse_ad_details, parse_ad_details_body, utcnow_isoformat.
  unfold_monad.
  destruct (ad_id ad) as [id|]; simpl; [|repeat split; reflexivity].
  destruct (price_value ad) as [p|]; simpl; [|repeat split; reflexivity].
  destruct (_extract_location ad) as [loc|]; simpl; [|repeat split; reflexivity].
  destruct (_extract_all_images ad) as [imgs|]; simpl; repeat split; reflexivity.
Qed.

(** X7: [_parse_ad_details] never raises, and it returns a record exactly
    for the ads of the shape above in which every entry of the list of
    images, and not only the first one, is a dictionary. *)
Theorem detail_record_iff_shape (env : Env) (ad : RawAd) (w : world) :
  is_Ok (fst (_parse_ad_details env ad w)) = true
  /\ yields_record (_parse_ad_details env ad w) = detail_shape ad
  /\ snd (_parse_ad_details env ad w) = if detail_shape ad then tick w else w.
Proof.
  exact (parse_ad_details_by_shape env ad w).
Qed.

(** X8: in a record of either path the title is the ad's subject or
    ['Unknown'], year and mileage are the ad's or null, source and
    category are ['blocket'] and ['car'], and [scraped_at] is the clock
    as read during the call, which reads it once; no optional attribute
    overwrites one of these fields. *)
Theorem record_defaults
    (env : Env) (ad : RawAd) (w w' : world) (d : dict) :
  _parse_ad env ad w = (Ok (Some d), w')
  \/ _parse_ad_details env ad w = (Ok (Some d), w') ->
  dict_lookup d "title" = Some (getattr (subject ad) (VStr "Unknown"))
  /\ dict_lookup d "year" = Some (getattr (year ad) VNone)
  /\ dict_lookup d "mileage" = Some (getattr (mileage ad) VNone)
  /\ dict_lookup d "source" = Some (VStr "blocket")
  /\ dict_lookup d "category" = Some (VStr "car")
  /\ dict_lookup d "scraped_at" = Some (VStr (utcnow env (n_clock w)))
  /\ n_clock w' = S (n_clock w).
Proof.
  intros H. either_path H; repeat split; lookup_through_sets; reflexivity.
Qed.

Lemma record_defaults_witness :
  dict_lookup volvo_summary "title" = Some (VStr "Volvo V70")
  /\ dict_lookup volvo_summary "mileage" = Some VNone
  /\ dict_lookup volvo_summary "scraped_at" = Some (VStr "2024-05-01T12:00:00").
Proof.
  destruct (@record_defaults volvo_env volvo_ad world0 (tick world0)
              volvo_summary (or_introl eq_refl))
    as (Ht & _ & Hm & _ & _ & Hs & _).
  split; [exact Ht|]. split; [exact Hm | exact Hs].
Defined.

(** X9: [get_ad_details] never raises and asks the marketplace once; it
    returns a record exactly when the lookup returns an ad of the shape
    the detail path accepts, and no record when the lookup raises. *)
Theorem get_ad_details_never_raises (env : Env) (id : Z) (w : world) :
  is_Ok (fst (get_ad_details env id w)) = true
  /\ trace (snd (get_ad_details env id w)) = (trace w ++ [EvGetAd id])%list
  /\ yields_record (get_ad_details env id w)
     = match api_get_ad env (n_api w) id with
       | Ok ad => detail_shape ad
       | Raise _ => false
       end.
Proof.
  unfold get_ad_details, get_ad, yields_record. unfold_monad.
  destruct (api_get_ad env (n_api w) id) as [ad|e]; [|repeat split; reflexivity].
  match goal with
  | |- context [_parse_ad_details env ad ?w0] =>
      destruct (parse_ad_details_by_shape env ad w0) as (Hok & Hy & Hw);
      unfold yields_record in Hy;
      destruct (_parse_ad_details env ad w0) as [[r|e] w1] eqn:Hrun
  end; simpl in Hok, Hy, Hw |- *; [|discriminate].
  split; [reflexivity|]. split; [|exact Hy].
  subst w1. destruct (detail_shape ad); reflexivity.
Qed.

(** * Further properties of the publisher *)

(** X10: a batch without records, on a connected publisher, sends
    nothing, flushes once and returns 0; on a publisher without client it
    raises [AttributeError]. *)
Theorem send_batch_empty (env : Env) (self : CarDataKafkaProducer) (w : world) :
  (producer self <> None -> send_batch env self [] w = (Ok 0, emit EvFlush w))
  /\ (producer self = None -> send_batch env self [] w = (Raise AttributeError, w)).
Proof.
  unfold send_batch. unfold_monad. simpl.
  destruct (producer self); split; intros H; try reflexivity; congruence.
Qed.

Lemma send_batch_empty_witness :
  send_batch (sample_env (Ok []) true (fun _ => true)) connected_producer [] world0
  = (Ok 0, emit EvFlush world0).
Proof.
  apply (proj1 (@send_batch_empty (sample_env (Ok []) true (fun _ => true))
                  connected_producer world0)).
  discriminate.
Defined.

Lemma send_batch_loop_bounds (env : Env) (self : CarDataKafkaProducer)
    (listings : list dict) :
  forall (c0 c : Z) (w w' : world),
  send_batch_loop env self listings c0 w = (Ok c, w') ->
  c0 <= c <= c0 + Z.of_nat (List.length listings).
Proof.
  induction listings as [|l rest IH]; intros c0 c w w' H.
  - simpl in H. unfold ret in H. inversion H. simpl. lia.
  - cbn [send_batch_loop] in H. unfold bind at 1 in H.
    destruct (send_listing env self l w) as [[sent|e] w1]; [|discriminate].
    apply IH in H. cbn [List.length]. destruct sent; lia.
Qed.

(** X11: whenever [send_batch] returns, the count it returns lies between
    0 and the number of records, the publisher has a client, and the last
    thing that happened is the flush. *)
Theorem send_batch_count_bounds
    (env : Env) (self : CarDataKafkaProducer) (listings : list dict)
    (w w' : world) (c : Z) :
  send_batch env self listings w = (Ok c, w') ->
  0 <= c <= Z.of_nat (List.length listings)
  /\ producer self <> None
  /\ exists evs, trace w' = (evs ++ [EvFlush])%list.
Proof.
  unfold send_batch. unfold bind at 1.
  destruct (send_batch_loop env self listings 0 w) as [[c1|e] w1] eqn:Hloop;
    [|discriminate].
  unfold_monad. destruct (producer self) as [p|]; simpl; [|discriminate].
  intros H. inversion H; subst.
  apply send_batch_loop_bounds in Hloop.
  split; [lia|]. split; [discriminate|]. exists (trace w1). reflexivity.
Qed.

Lemma send_batch_count_bounds_witness :
  0 <= 2 <= Z.of_nat (List.length three_records).
Proof.
  exact (proj1 (@send_batch_count_bounds
                  (sample_env (Ok []) true (fun n => negb (Nat.eqb n 1)))
                  connected_producer three_records world0
                  (snd (send_batch
                          (sample_env (Ok []) true (fun n => negb (Nat.eqb n 1)))
                          connected_producer three_records world0))
                  2 eq_refl)).
Defined.

(** One call of [send_listing] hands at most one message to the broker and
    touches nothing else. *)
Lemma send_listing_events (env : Env) (self : CarDataKafkaProducer)
    (listing : dict) (w : world) :
  exists evs,
    trace (snd (send_listing env self listing w)) = (trace w ++ evs)%list
    /\ (List.length evs <= 1)%nat
    /\ Forall (fun e => is_send_event e = true) evs.
Proof.
  unfold send_listing, KafkaProducer_send, Future_get. unfold_monad.
  destruct (producer self) as [p|]; simpl.
  2: { exists []. rewrite app_nil_r. repeat split; [simpl; lia | constructor]. }
  destruct (key_serializer _) as [k|e]; simpl.
  2: { destruct (isinstance_KafkaError e); exists []; rewrite app_nil_r;
       repeat split; try (simpl; lia); constructor. }
  destruct (value_serializer listing) as [v|e]; simpl.
  2: { destruct (isinstance_KafkaError e); exists []; rewrite app_nil_r;
       repeat split; try (simpl; lia); constructor. }
  exists [EvSend {| msg_topic := topic self; msg_key := k; msg_value := v |}
            (kafka_deliver env (n_deliver w)
               {| msg_topic := topic self; msg_key := k; msg_value := v |})].
  destruct (kafka_deliver env (n_deliver w) _) as [e|]; simpl;
    [destruct (isinstance_KafkaError e)|];
    (split; [reflexivity|]); (split; [simpl; lia|]); repeat constructor.
Qed.

(** X12: an exception that leaves one [send_listing] ends the batch:
    [send_batch] raises it, the records after that one are never handed to
    the broker, and the client is not flushed. *)
Theorem send_batch_aborts_on_exception
    (env : Env) (self : CarDataKafkaProducer) (listings : list dict)
    (w : world) (e : exn) :
  In (Raise e) (send_outcomes env self listings w) ->
  fst (send_batch env self listings w) = Raise e
  /\ exists evs,
       trace (snd (send_batch env self listings w)) = (trace w ++ evs)%list
       /\ Forall (fun ev => is_send_event ev = true) evs
       /\ (List.length evs <= List.length (send_outcomes env self listings w))%nat.
Proof.
  intros Hin.
  assert (Hloop : forall c,
    fst (send_batch_loop env self listings c w) = Raise e
    /\ exists evs,
         trace (snd (send_batch_loop env self listings c w)) = (trace w ++ evs)%list
         /\ Forall (fun ev => is_send_event ev = true) evs
         /\ (List.length evs <= List.length (send_outcomes env self listings w))%nat).
  { revert w Hin. induction listings as [|l rest IH]; intros w Hin c.
    - simpl in Hin. contradiction.
    - cbn [send_outcomes send_batch_loop] in Hin |- *. unfold bind at 1 2.
      destruct (send_listing_events env self l w) as (ev1 & Htr1 & Hlen1 & Hs1).
      destruct (send_listing env self l w) as [[sent|e1] w1] eqn:Hsend;
        cbn [fst snd] in Hin, Htr1 |- *.
      + destruct Hin as [Hin | Hin]; [discriminate|].
        destruct (IH w1 Hin (if sent then c + 1 else c))
          as (Hr & evs & Htr & Hs & Hlen).
        split; [exact Hr|]. exists (ev1 ++ evs)%list.
        rewrite Htr, Htr1, <- app_assoc. split; [reflexivity|].
        split; [apply Forall_app; split; [exact Hs1 | exact Hs]|].
        rewrite length_app. simpl. lia.
      + destruct Hin as [Hin | []]. inversion Hin; subst e1.
        split; [reflexivity|]. exists ev1.
        split; [exact Htr1|]. split; [exact Hs1 | simpl; lia]. }
  destruct (Hloop 0) as (Hr & evs & Htr & Hs & Hlen).
  destruct (send_batch_loop env self listings 0 w) as [[c|e1] w1] eqn:Hl;
    cbn [fst snd] in Hr, Htr; [discriminate|].
  assert (Hsb : send_batch env self listings w = (Raise e1, w1)).
  { unfold send_batch. unfold bind at 1. rewrite Hl. reflexivity. }
  rewrite Hsb. cbn [fst snd].
  split; [exact Hr|]. exists evs.
  split; [exact Htr|]. split; [exact Hs | exact Hlen].
Qed.

Lemma send_batch_aborts_on_exception_witness :
  let env := sample_env (Ok []) true (fun _ => true) in
  let listings :=
    [ [("listing_id", VStr "1")];
      [("listing_id", VStr "2"); ("make", VObj "Make")];
      [("listing_id", VStr "3")] ] in
  fst (send_batch env connected_producer listings world0) = Raise TypeError
  /\ List.length (trace (snd (send_batch env connected_producer listings world0)))
     = 1%nat.
Proof.
  split; [|reflexivity].
  apply (@send_batch_aborts_on_exception
           (sample_env (Ok []) true (fun _ => true)) connected_producer
           [ [("listing_id", VStr "1")];
             [("listing_id", VStr "2"); ("make", VObj "Make")];
             [("listing_id", VStr "3")] ] world0 TypeError).
  right. left. reflexivity.
Defined.

(** A record both serializers accept, on a broker that fails with
    [KafkaError] only: the send returns, true exactly when the broker
    acknowledges, and the broker was handed the record. *)
Lemma send_listing_publishable (env : Env) (self : CarDataKafkaProducer)
    (p : KafkaProducer) (listing : dict) (w : world) :
  producer self = Some p ->
  kafka_only env ->
  publishable listing = true ->
  exists ev w',
    send_listing env self listing w = (Ok (is_acked ev), w')
    /\ trace w' = (trace w ++ [ev])%list
    /\ sent_value ev = Some listing.
Proof.
  intros Hp Hk Hpub. unfold publishable in Hpub.
  apply andb_prop in Hpub. destruct Hpub as [Hkey Hval].
  unfold send_listing, KafkaProducer_send, Future_get, value_serializer.
  unfold_monad. rewrite Hp, Hval.
  destruct (key_serializer _) as [k|]; [|discriminate]. simpl.
  pose proof (Hk (n_deliver w)
                {| msg_topic := topic self; msg_key := k; msg_value := listing |})
    as Hke.
  exists (EvSend {| msg_topic := topic self; msg_key := k; msg_value := listing |}
            (kafka_deliver env (n_deliver w)
               {| msg_topic := topic self; msg_key := k; msg_value := listing |})).
  destruct (kafka_deliver env (n_deliver w) _) as [e|]; simpl.
  - rewrite (Hke e eq_refl). eexists. repeat split; reflexivity.
  - eexists. repeat split; reflexivity.
Qed.

Lemma send_batch_loop_publishable (env : Env) (self : CarDataKafkaProducer)
    (p : KafkaProducer) (listings : list dict) :
  producer self = Some p ->
  kafka_only env ->
  forallb publishable listings = true ->
  forall (c : Z) (w : world),
  exists evs w',
    send_batch_loop env self listings c w
    = (Ok (c + Z.of_nat (List.length (filter is_acked evs))), w')
    /\ trace w' = (trace w ++ evs)%list
    /\ map sent_value evs = map Some listings.
Proof.
  intros Hp Hk. induction listings as [|l rest IH]; intros Hpub c w.
  - exists [], w. simpl. rewrite Z.add_0_r, app_nil_r. repeat split; reflexivity.
  - simpl in Hpub. apply andb_prop in Hpub. destruct Hpub as [Hl Hrest].
    destruct (@send_listing_publishable env self p l w Hp Hk Hl)
      as (ev & w1 & Hsend & Htr1 & Hv).
    destruct (IH Hrest (if is_acked ev then c + 1 else c) w1)
      as (evs & w' & Hrun & Htr & Hvs).
    exists (ev :: evs), w'.
    cbn [send_batch_loop]. unfold bind at 1. rewrite Hsend, Hrun.
    split; [|split].
    + f_equal. f_equal. cbn [filter].
      destruct (is_acked ev); cbn [List.length]; lia.
    + rewrite Htr, Htr1, <- app_assoc. reflexivity.
    + simpl. rewrite Hv, Hvs. reflexivity.
Qed.

Lemma send_batch_publishable
    (env : Env) (self : CarDataKafkaProducer) (p : KafkaProducer)
    (listings : list dict) (w : world) :
  producer self = Some p ->
  kafka_only env ->
  forallb publishable listings = true ->
  exists evs w',
    send_batch env self listings w
    = (Ok (Z.of_nat (List.length (filter is_acked evs))), w')
    /\ trace w' = (trace w ++ evs ++ [EvFlush])%list
    /\ map sent_value evs = map Some listings.
Proof.
  intros Hp Hk Hpub.
  destruct (@send_batch_loop_publishable env self p listings Hp Hk Hpub 0 w)
    as (evs & w1 & Hrun & Htr & Hvs).
  exists evs, (emit EvFlush w1).
  unfold send_batch. unfold bind at 1. rewrite Hrun.
  unfold_monad. rewrite Hp. simpl.
  split; [reflexivity|]. split; [|exact Hvs].
  rewrite Htr, <- app_assoc. reflexivity.
Qed.

(** X13: on a connected publisher and a broker that fails with
    [KafkaError] only, a batch of records that both serializers accept is
    never cut short: every record is handed to the broker, once and in
    the order of the batch, whatever happened to the records before it;
    then comes the flush, and the count returned is the number of
    messages the broker acknowledged. *)
Theorem send_batch_sends_every_record
    (env : Env) (self : CarDataKafkaProducer) (p : KafkaProducer)
    (listings : list dict) (w : world) :
  producer self = Some p ->
  kafka_only env ->
  forallb publishable listings = true ->
  exists evs w',
    send_batch env self listings w
    = (Ok (Z.of_nat (List.length (filter is_acked evs))), w')
    /\ trace w' = (trace w ++ evs ++ [EvFlush])%list
    /\ map sent_value evs = map Some listings.
Proof.
  intros Hp Hk Hpub.
  exact (@send_batch_publishable env self p listings w Hp Hk Hpub).
Qed.

Lemma sample_env_kafka_only (answer : result (list RawAd)) (reachable : bool)
    (acks : nat -> bool) :
  kafka_only (sample_env answer reachable acks).
Proof.
  intros n m e. simpl. destruct (acks n); intros H; inversion H; reflexivity.
Defined.

Lemma send_batch_sends_every_record_witness :
  let env := sample_env (Ok []) true (fun n => negb (Nat.eqb n 1)) in
  exists evs w',
    send_batch env connected_producer three_records world0
    = (Ok (Z.of_nat (List.length (filter is_acked evs))), w')
    /\ trace w' = (trace world0 ++ evs ++ [EvFlush])%list
    /\ map sent_value evs = map Some three_records.
Proof.
  apply (@send_batch_sends_every_record
           (sample_env (Ok []) true (fun n => negb (Nat.eqb n 1)))
           connected_producer {| kp_bootstrap_servers := ["localhost:9092"] |}
           three_records world0);
    [reflexivity | apply sample_env_kafka_only | reflexivity].
Defined.

(** ** Connecting *)

(** X14: when the first [k] attempts, [k] below 3, fail with a
    [KafkaError] and the next one succeeds, [_connect] returns with the
    client in place, after [k] sleeps of 5 and [k + 1] attempts, and
    leaves topic and servers as they were. *)
Theorem connect_succeeds_after_failures
    (env : Env) (self : CarDataKafkaProducer) (w : world) (k : nat) :
  (k < 3)%nat ->
  (forall i, (i < k)%nat -> kafka_connect env (n_connect w + i) = Some KafkaError) ->
  kafka_connect env (n_connect w + k) = None ->
  exists w',
    _connect env self w
    = (Ok {| bootstrap_servers := bootstrap_servers self;
             topic := topic self;
             producer := Some {| kp_bootstrap_servers := bootstrap_servers self |} |},
       w')
    /\ trace w' = (trace w ++ attempts_after k (bootstrap_servers self))%list
    /\ n_connect w' = (n_connect w + k + 1)%nat.
Proof.
  intros Hk Hfail Hok.
  unfold _connect, attempts_after, KafkaProducer_new.
  destruct k as [|[|[|k]]]; [| | |lia].
  - rewrite Nat.add_0_r in Hok.
    simpl. unfold KafkaProducer_new. unfold_monad. simpl. rewrite Hok. simpl.
    eexists. split; [reflexivity|]. split; [reflexivity | simpl; lia].
  - pose proof (Hfail 0%nat ltac:(lia)) as H0. rewrite Nat.add_0_r in H0.
    replace (n_connect w + 1)%nat with (S (n_connect w)) in Hok by lia.
    simpl. unfold KafkaProducer_new. unfold_monad. simpl. rewrite H0. simpl. rewrite Hok. simpl.
    eexists. split; [reflexivity|]. split; [|simpl; lia].
    simpl. rewrite <- !app_assoc. reflexivity.
  - pose proof (Hfail 0%nat ltac:(lia)) as H0. rewrite Nat.add_0_r in H0.
    pose proof (Hfail 1%nat ltac:(lia)) as H1.
    replace (n_connect w + 1)%nat with (S (n_connect w)) in H1 by lia.
    replace (n_connect w + 2)%nat with (S (S (n_connect w))) in Hok by lia.
    simpl. unfold KafkaProducer_new. unfold_monad. simpl. rewrite H0. simpl. rewrite H1. simpl.
    rewrite Hok. simpl.
    eexists. split; [reflexivity|]. split; [|simpl; lia].
    simpl. rewrite <- !app_assoc. reflexivity.
Qed.

Lemma connect_succeeds_after_failures_witness :
  exists w',
    _connect flaky_env connected_producer world0 = (Ok connected_producer, w')
    /\ trace w' = [EvConnect ["localhost:9092"]; EvSleep 5;
                    EvConnect ["localhost:9092"]]
    /\ n_connect w' = 2%nat.
Proof.
  apply (@connect_succeeds_after_failures flaky_env connected_producer world0 1%nat).
  - lia.
  - intros i Hi. replace i with 0%nat by lia. reflexivity.
  - reflexivity.
Defined.

(** X15: an exception of the client constructor that is not a
    [KafkaError] is not retried: after [k] failures with [KafkaError],
    [k] below 3, it leaves [_connect] at once, without a further sleep or
    attempt; [main] catches it like any other and goes on without
    producer. *)
Theorem connect_other_exception_is_not_retried
    (env : Env) (w : world) (k : nat) (e : exn) :
  (k < 3)%nat ->
  (forall i, (i < k)%nat -> kafka_connect env (n_connect w + i) = Some KafkaError) ->
  kafka_connect env (n_connect w + k) = Some e ->
  isinstance_KafkaError e = false ->
  (forall self, exists w',
     _connect env self w = (Raise e, w')
     /\ trace w' = (trace w ++ attempts_after k (bootstrap_servers self))%list)
  /\ fst (init_kafka_producer env w) = Ok None.
Proof.
  intros Hk Hfail Hraise He.
  assert (Hconn : forall self, exists w',
            _connect env self w = (Raise e, w')
            /\ trace w' = (trace w ++ attempts_after k (bootstrap_servers self))%list).
  { intros self. unfold _connect, attempts_after.
    destruct k as [|[|[|k]]]; [| | |lia].
    - rewrite Nat.add_0_r in Hraise.
      simpl. unfold KafkaProducer_new. unfold_monad. simpl.
      rewrite Hraise. simpl. rewrite He.
      eexists. split; reflexivity.
    - pose proof (Hfail 0%nat ltac:(lia)) as H0. rewrite Nat.add_0_r in H0.
      replace (n_connect w + 1)%nat with (S (n_connect w)) in Hraise by lia.
      simpl. unfold KafkaProducer_new. unfold_monad. simpl.
      rewrite H0. simpl. rewrite Hraise. simpl. rewrite He.
      eexists. split; [reflexivity|]. simpl. rewrite <- !app_assoc. reflexivity.
    - pose proof (Hfail 0%nat ltac:(lia)) as H0. rewrite Nat.add_0_r in H0.
      pose proof (Hfail 1%nat ltac:(lia)) as H1.
      replace (n_connect w + 1)%nat with (S (n_connect w)) in H1 by lia.
      replace (n_connect w + 2)%nat with (S (S (n_connect w))) in Hraise by lia.
      simpl. unfold KafkaProducer_new. unfold_monad. simpl.
      rewrite H0. simpl. rewrite H1. simpl. rewrite Hraise. simpl.
      destruct (isinstance_KafkaError e);
        (eexists; split; [reflexivity|]; simpl; rewrite <- !app_assoc; reflexivity). }
  split; [exact Hconn|].
  destruct (Hconn {| bootstrap_servers := ["localhost:9092"];
                     topic := "raw-car-listings";
                     producer := None |}) as (w' & Hc & _).
  unfold init_kafka_producer, CarDataKafkaProducer_init.
  unfold_monad. cbv beta iota. cbn [servers_or_default]. rewrite Hc. reflexivity.
Qed.

Lemma connect_other_exception_is_not_retried_witness :
  (forall self, exists w',
     _connect misconfigured_env self world0 = (Raise TypeError, w')
     /\ trace w' = (trace world0 ++ attempts_after 0 (bootstrap_servers self))%list)
  /\ fst (init_kafka_producer misconfigured_env world0) = Ok None.
Proof.
  apply (@connect_other_exception_is_not_retried misconfigured_env world0 0%nat
           TypeError).
  - lia.
  - intros i Hi. lia.
  - reflexivity.
  - reflexivity.
Defined.

(** X16: the construction of the publisher makes between one and three
    attempts to connect; when it returns, the publisher has a client,
    the topic it was given and the servers it was given, or
    ['localhost:9092'] for none; and the driver's construction never
    raises. *)
Theorem publisher_construction
    (env : Env) (servers : option (list string)) (topic_name : string) (w : world) :
  (n_connect w < n_connect (snd (CarDataKafkaProducer_init env servers topic_name w))
   <= n_connect w + 3)%nat
  /\ match fst (CarDataKafkaProducer_init env servers topic_name w) with
     | Ok self =>
         producer self
         = Some {| kp_bootstrap_servers := servers_or_default servers |}
         /\ topic self = topic_name
         /\ bootstrap_servers self = servers_or_default servers
     | Raise _ => True
     end
  /\ is_Ok (fst (init_kafka_producer env w)) = true.
Proof.
  unfold init_kafka_producer, CarDataKafkaProducer_init, _connect.
  simpl. unfold KafkaProducer_new. unfold_monad. simpl.
  destruct (kafka_connect env (n_connect w)) as [[]|]; simpl;
    try (repeat split; solve [lia | reflexivity | exact I]).
  destruct (kafka_connect env (S (n_connect w))) as [[]|]; simpl;
    try (repeat split; solve [lia | reflexivity | exact I]).
  destruct (kafka_connect env (S (S (n_connect w)))) as [[]|]; simpl;
    repeat split; solve [lia | reflexivity | exact I].
Qed.

(** ** From the ad to the broker *)

Lemma json_dict_get (d : dict) (k : string) (v0 : pyval) :
  json_serializable (VDict d) = true ->
  json_serializable v0 = true ->
  json_serializable (dict_get d k v0) = true.
Proof.
  unfold dict_get. intros Hd H0.
  induction d as [|[k' v] d IH]; simpl; [exact H0|].
  simpl in Hd. apply andb_prop in Hd. destruct Hd as [Hv Hd].
  destruct (k' =? k)%string; [exact Hv | apply IH; exact Hd].
Qed.

Lemma json_dict_set (d : dict) (k : string) (v : pyval) :
  json_serializable (VDict d) = true ->
  json_serializable v = true ->
  json_serializable (VDict (dict_set d k v)) = true.
Proof.
  intros Hd Hv. induction d as [|[k' v'] d IH]; simpl.
  - rewrite Hv. reflexivity.
  - simpl in Hd. apply andb_prop in Hd. destruct Hd as [Hv' Hd].
    destruct (k' =? k)%string; simpl.
    + rewrite Hv. exact Hd.
    + rewrite Hv'. apply IH. exact Hd.
Qed.

Lemma json_set_if_hasattr (d : dict) (k : string) (a : option pyval) :
  json_serializable (VDict d) = true ->
  attr_serializable a = true ->
  json_serializable (VDict (set_if_hasattr d k a)) = true.
Proof.
  intros Hd Ha. destruct a as [v|]; simpl; [|exact Hd].
  apply json_dict_set; assumption.
Qed.

Lemma json_getattr (a : option pyval) (v0 : pyval) :
  attr_serializable a = true ->
  json_serializable v0 = true ->
  json_serializable (getattr a v0) = true.
Proof.
  intros Ha H0. destruct a; simpl; assumption.
Qed.

Lemma json_price_value (ad : RawAd) (p : pyval) :
  attr_serializable (price ad) = true ->
  price_value ad = Ok p -> json_serializable p = true.
Proof.
  unfold price_value. destruct (price ad) as [v|]; simpl.
  - destruct v; simpl; try discriminate.
    intros Hd H. inversion H. apply json_dict_get; [exact Hd | reflexivity].
  - intros _ H. inversion H. reflexivity.
Qed.

Lemma json_extract_location (ad : RawAd) (loc : pyval) :
  attr_serializable (location ad) = true ->
  _extract_location ad = Ok loc -> json_serializable loc = true.
Proof.
  unfold _extract_location. destruct (location ad) as [v|]; simpl.
  - destruct (py_truthy v).
    + destruct v; simpl; try discriminate.
      intros Hd H. inversion H. apply json_dict_get; [exact Hd | reflexivity].
    + intros _ H. inversion H. reflexivity.
  - intros _ H. inversion H. reflexivity.
Qed.

Lemma json_extract_image (ad : RawAd) (img : pyval) :
  attr_serializable (images ad) = true ->
  _extract_image ad = Ok img -> json_serializable img = true.
Proof.
  unfold _extract_image. destruct (images ad) as [v|]; simpl.
  - destruct (py_truthy v); simpl.
    + destruct v as [| b | z | s | [|x l] | d | c]; simpl; try discriminate.
      * destruct s; discriminate.
      * intros Hv. apply andb_prop in Hv. destruct Hv as [Hx _].
        destruct x; simpl; try discriminate.
        intros H. inversion H. apply json_dict_get; [exact Hx | reflexivity].
    + intros _ H. inversion H. reflexivity.
  - intros _ H. inversion H. reflexivity.
Qed.

Lemma json_image_urls (imgs us : list pyval) :
  forallb json_serializable imgs = true ->
  image_urls imgs = Ok us -> forallb json_serializable us = true.
Proof.
  revert us. induction imgs as [|img rest IH]; intros us Hall; simpl.
  - intros H. inversion H. reflexivity.
  - simpl in Hall. apply andb_prop in Hall. destruct Hall as [Himg Hrest].
    destruct img; simpl; try discriminate.
    destruct (py_truthy (dict_get d "url" VNone)).
    + destruct (image_urls rest) as [us'|]; [|discriminate].
      intros H. inversion H. simpl.
      rewrite (json_dict_get d "url" VNone Himg eq_refl). apply IH; [exact Hrest | reflexivity].
    + apply IH. exact Hrest.
Qed.

Lemma json_extract_all_images (ad : RawAd) (imgs : pyval) :
  attr_serializable (images ad) = true ->
  _extract_all_images ad = Ok imgs -> json_serializable imgs = true.
Proof.
  unfold _extract_all_images. destruct (images ad) as [v|]; simpl.
  - destruct (py_truthy v); simpl.
    + destruct v as [| b | z | s | l | d | c]; simpl; try discriminate.
      * intros _. destruct (image_urls (string_chars s)) as [us|] eqn:E; [|discriminate].
        intros H. inversion H. simpl.
        apply (@json_image_urls (string_chars s) us); [|exact E].
        clear. induction s; simpl; [reflexivity | assumption].
      * intros Hl. destruct (image_urls l) as [us|] eqn:E; [|discriminate].
        intros H. inversion H. simpl. apply (@json_image_urls l us); assumption.
      * intros _. destruct (image_urls _) as [us|] eqn:E; [|discriminate].
        intros H. inversion H. simpl.
        apply (@json_image_urls (map (fun kv => VStr (fst kv)) d) us); [|exact E]. clear.
        induction d as [|[k v] d IH]; simpl; [reflexivity | assumption].
    + intros _ H. inversion H. reflexivity.
  - intros _ H. inversion H. reflexivity.
Qed.

Ltac split_serializable H :=
  unfold ad_serializable in H; cbn [forallb] in H;
  repeat (let Ha := fresh "Ha" in
          apply andb_prop in H; destruct H as [Ha H]).

Lemma parsed_record_publishable
    (env : Env) (ad : RawAd) (w w' : world) (d : dict) :
  _parse_ad env ad w = (Ok (Some d), w')
  \/ _parse_ad_details env ad w = (Ok (Some d), w') ->
  ad_serializable ad = true ->
  publishable d = true
  /\ key_serializer (dict_get d "listing_id" (VStr "unknown"))
     = Ok match ad_id ad with
          | Some id =>
              if (py_str id =? EmptyString)%string then None else Some (py_str id)
          | None => None
          end.
Proof.
  intros H Hser. split_serializable Hser.
  assert (Hkey : forall id,
            key_serializer (VStr (py_str id))
            = Ok (if (py_str id =? EmptyString)%string then None
                  else Some (py_str id))).
  { intros id. unfold key_serializer. simpl.
    destruct (py_str id =? EmptyString)%string; reflexivity. }
  either_path H.
  - pose proof (json_price_value _ Ha1 Hp) as Jp.
    pose proof (json_extract_location _ Ha4 Hloc) as Jl.
    pose proof (json_extract_image _ Ha5 Himg) as Ji.
    assert (Hk : key_serializer
                   (dict_get
                      (set_if_hasattr
                         (set_if_hasattr
                            (set_if_hasattr
                               (set_if_hasattr
                                  [ ("listing_id", VStr (py_str id));
                                    ("title", getattr (subject ad) (VStr "Unknown"));
                                    ("price", p);
                                    ("year", getattr (year ad) VNone);
                                    ("mileage", getattr (mileage ad) VNone);
                                    ("location", loc);
                                    ("url", VStr ("https://www.blocket.se/" ++ py_str id));
                                    ("image_url", img);
                                    ("scraped_at", VStr (utcnow env (n_clock w)));
                                    ("source", VStr "blocket");
                                    ("category", VStr "car") ]
                                  "make" (make ad))
                               "model" (model ad))
                            "fuel_type" (fuel_type ad))
                         "transmission" (transmission ad))
                      "listing_id" (VStr "unknown"))
                 = Ok (if (py_str id =? EmptyString)%string then None
                       else Some (py_str id))).
    { unfold dict_get. lookup_through_sets. apply Hkey. }
    rewrite Hid. split; [|exact Hk].
    unfold publishable. rewrite Hk.
    replace (is_Ok (Ok (if (py_str id =? EmptyString)%string then None
                        else Some (py_str id)))) with true by reflexivity.
    rewrite andb_true_l.
    repeat apply json_set_if_hasattr; try assumption.
    cbn [json_serializable forallb snd].
    rewrite (json_getattr _ (VStr "Unknown") Ha eq_refl),
      (json_getattr _ VNone Ha2 eq_refl), (json_getattr _ VNone Ha3 eq_refl),
      Jp, Jl, Ji.
    reflexivity.
  - pose proof (json_price_value _ Ha1 Hp) as Jp.
    pose proof (json_extract_location _ Ha4 Hloc) as Jl.
    pose proof (json_extract_all_images _ Ha5 Himg) as Ji.
    assert (Hk : key_serializer
                   (dict_get
                      (set_if_hasattr
                         (set_if_hasattr
                            (set_if_hasattr
                               (set_if_hasattr
                                  (set_if_hasattr
                                     (set_if_hasattr
                                        (set_if_hasattr
                                           [ ("listing_id", VStr (py_str id));
                                             ("title", getattr (subject ad) (VStr "Unknown"));
                                             ("description", getattr (body ad) (VStr EmptyString));
                                             ("price", p);
                                             ("year", getattr (year ad) VNone);
                                             ("mileage", getattr (mileage ad) VNone);
                                             ("location", loc);
                                             ("url", VStr ("https://www.blocket.se/" ++ py_str id));
                                             ("images", img);
                                             ("posted_date", getattr (list_time ad) VNone);
                                             ("scraped_at", VStr (utcnow env (n_clock w)));
                                             ("source", VStr "blocket");
                                             ("category", VStr "car") ]
                                           "make" (make ad))
                                        "model" (model ad))
                                     "fuel_type" (fuel_type ad))
                                  "transmission" (transmission ad))
                               "body_type" (body_type ad))
                            "color" (color ad))
                         "engine_power" (engine_power ad))
                      "listing_id" (VStr "unknown"))
                 = Ok (if (py_str id =? EmptyString)%string then None
                       else Some (py_str id))).
    { unfold dict_get. lookup_through_sets. apply Hkey. }
    rewrite Hid. split; [|exact Hk].
    unfold publishable. rewrite Hk.
    replace (is_Ok (Ok (if (py_str id =? EmptyString)%string then None
                        else Some (py_str id)))) with true by reflexivity.
    rewrite andb_true_l.
    repeat apply json_set_if_hasattr; try assumption.
    cbn [json_serializable forallb snd].
    rewrite (json_getattr _ (VStr "Unknown") Ha eq_refl),
      (json_getattr _ (VStr EmptyString) Ha0 eq_refl),
      (json_getattr _ VNone Ha2 eq_refl), (json_getattr _ VNone Ha3 eq_refl),
      (json_getattr _ VNone Ha6 eq_refl), Jp, Jl, Ji.
    reflexivity.
Qed.

(** X17: when the attribute values of an ad are values [json.dumps]
    accepts, both serializers of the client accept the record either path
    makes of it; the key it is sent with is its [listing_id], and it is
    sent without key when its [listing_id] is the empty string. *)
Theorem parsed_record_is_publishable
    (env : Env) (ad : RawAd) (w w' : world) (d : dict) :
  _parse_ad env ad w = (Ok (Some d), w')
  \/ _parse_ad_details env ad w = (Ok (Some d), w') ->
  ad_serializable ad = true ->
  publishable d = true
  /\ key_serializer (dict_get d "listing_id" (VStr "unknown"))
     = Ok match ad_id ad with
          | Some id =>
              if (py_str id =? EmptyString)%string then None else Some (py_str id)
          | None => None
          end.
Proof.
  intros H Hser.
  exact (@parsed_record_publishable env ad w w' d H Hser).
Qed.

Lemma parsed_record_is_publishable_witness :
  publishable nameless_summary = true
  /\ key_serializer (dict_get nameless_summary "listing_id" (VStr "unknown"))
     = Ok None.
Proof.
  apply (@parsed_record_is_publishable volvo_env nameless_ad world0 (tick world0)
           nameless_summary (or_introl eq_refl)).
  reflexivity.
Defined.

(** * Further properties of the search *)

(** X18: [search_cars] never raises; it asks the marketplace exactly
    once, with the arguments of [search_args]; it returns at most
    [max_results] records and at most one per ad returned, none when the
    call raised; and every record it returns has a [listing_id]. *)
Theorem search_cars_never_raises (env : Env) (kw : search_kwargs) (w : world) :
  exists ls w',
    search_cars env kw w = (Ok ls, w')
    /\ (List.length ls <= Z.to_nat (max_results kw))%nat
    /\ match api_search_car env (n_api w) (search_args kw) with
       | Ok ads => (List.length ls <= List.length ads)%nat
       | Raise _ => ls = []
       end
    /\ trace w' = (trace w ++ [EvSearch (search_args kw)])%list
    /\ n_api w' = S (n_api w)
    /\ Forall (fun d => dict_lookup d "listing_id" <> None) ls.
Proof.
  unfold search_cars, try_except, bind, search_car.
  destruct (api_search_car env (n_api w) (search_args kw)) as [ads|e].
  - match goal with
    | |- context [search_loop env ads 0 ?mx [] ?w0] =>
        destruct (search_loop_spec env ads 0 mx [] w0)
          as (ls & w' & Hrun & Htr & Hapi & Hall & _)
    end.
    rewrite Hrun. simpl in *. rewrite Z.sub_0_r in Hall.
    exists ls, w'. split; [reflexivity|].
    pose proof (Forall2_length Hall) as Hl.
    pose proof (filter_length_le normalizes
                  (firstn (Z.to_nat (max_results kw)) ads)) as Hf.
    rewrite length_firstn in Hf.
    split; [lia|]. split; [lia|]. split; [exact Htr|]. split; [exact Hapi|].
    clear - Hall. induction Hall as [|ad d ads' ls' Hd _ IH]; constructor; [|exact IH].
    destruct Hd as (w0 & Hd).
    destruct (parse_ad_inv _ _ _ Hd) as (id & p & loc & img & _ & _ & _ & _ & _ & Hrec).
    subst d. lookup_through_sets. discriminate.
  - exists []. unfold isinstance_Exception, ret. eexists.
    split; [reflexivity|]. simpl.
    split; [lia|]. split; [reflexivity|]. split; [reflexivity|].
    split; [reflexivity | constructor].
Qed.

(** X19: with a cap of 0 or less [search_cars] still asks the
    marketplace, and returns no record whatever the answer. *)
Theorem search_cars_cap_not_positive (env : Env) (kw : search_kwargs) (w : world) :
  max_results kw <= 0 ->
  fst (search_cars env kw w) = Ok []
  /\ trace (snd (search_cars env kw w)) = (trace w ++ [EvSearch (search_args kw)])%list.
Proof.
  intros Hmx.
  unfold search_cars, try_except, bind, search_car.
  destruct (api_search_car env (n_api w) (search_args kw)) as [ads|e];
    [|split; reflexivity].
  destruct ads as [|ad rest]; simpl; [split; reflexivity|].
  destruct (0 >=? max_results kw) eqn:E; [split; reflexivity | lia].
Qed.

Lemma search_cars_cap_not_positive_witness :
  fst (search_cars volvo_env capped_at_zero world0) = Ok []
  /\ trace (snd (search_cars volvo_env capped_at_zero world0))
     = (trace world0 ++ [EvSearch (search_args capped_at_zero)])%list.
Proof.
  apply (@search_cars_cap_not_positive volvo_env capped_at_zero world0).
  simpl. lia.
Defined.

(** X20: a search given no location, or an empty list of locations, asks
    the marketplace for Stockholm; the query, the six bounds and the sort
    order go to the marketplace as they were given, and the cap does not
    go there at all. *)
Theorem search_cars_default_location (env : Env) (kw : search_kwargs) (w : world) :
  locations kw = None \/ locations kw = Some [] ->
  trace (snd (search_cars env kw w))
  = (trace w
     ++ [EvSearch {| sa_query := query kw;
                     sa_locations := [STOCKHOLM];
                     sa_price_from := price_from kw;
                     sa_price_to := price_to kw;
                     sa_year_from := year_from kw;
                     sa_year_to := year_to kw;
                     sa_mileage_from := mileage_from kw;
                     sa_mileage_to := mileage_to kw;
                     sa_sort_order := sort_order kw |}])%list.
Proof.
  intros Hloc.
  destruct (search_cars_returns env kw w) as (ls & w' & Hrun & Htr & _).
  rewrite Hrun. simpl. rewrite Htr. unfold search_args.
  destruct Hloc as [H | H]; rewrite H; reflexivity.
Qed.

Lemma search_cars_default_location_witness :
  trace (snd (search_cars volvo_env capped_at_zero world0))
  = [EvSearch {| sa_query := Some "Volvo V70";
                 sa_locations := [STOCKHOLM];
                 sa_price_from := None; sa_price_to := None;
                 sa_year_from := None; sa_year_to := None;
                 sa_mileage_from := None; sa_mileage_to := None;
                 sa_sort_order := PRICE_ASC |}].
Proof.
  apply (@search_cars_default_location volvo_env capped_at_zero world0).
  right. reflexivity.
Defined.

(** * Further properties of the driver *)

Lemma sum_prices_ints (all_listings : list dict) :
  Forall (fun l => int_or_null (dict_lookup l "price") = true) all_listings ->
  forall acc,
    sum_prices all_listings acc = Ok (acc + Zsum (int_values "price" all_listings)).
Proof.
  induction 1 as [|l rest Hl _ IH]; intros acc; simpl.
  - rewrite Z.add_0_r. reflexivity.
  - unfold has_price, dict_get, dict_getitem.
    destruct (dict_lookup l "price") as [[| b | z | s0 | l0 | d | c]|];
      simpl in Hl |- *; try discriminate; try apply IH.
    destruct (z =? 0); simpl; [apply IH|].
    rewrite IH. unfold Zsum. f_equal. lia.
Qed.

Lemma count_prices_ints (all_listings : list dict) :
  Forall (fun l => int_or_null (dict_lookup l "price") = true) all_listings ->
  count_prices all_listings = List.length (int_values "price" all_listings).
Proof.
  unfold count_prices.
  induction 1 as [|l rest Hl _ IH]; simpl; [reflexivity|].
  unfold has_price, dict_get.
  destruct (dict_lookup l "price") as [[| b | z | s0 | l0 | d | c]|];
    simpl in Hl |- *; try discriminate; try exact IH.
  destruct (z =? 0); simpl; [exact IH | f_equal; exact IH].
Qed.

Lemma collect_years_ints (all_listings : list dict) :
  Forall (fun l => int_or_null (dict_lookup l "year") = true) all_listings ->
  collect_years all_listings = Ok (map VInt (int_values "year" all_listings)).
Proof.
  induction 1 as [|l rest Hl _ IH]; simpl; [reflexivity|].
  unfold has_year, dict_get, dict_getitem.
  destruct (dict_lookup l "year") as [[| b | z | s0 | l0 | d | c]|];
    simpl in Hl |- *; try discriminate; try exact IH.
  destruct (z =? 0); simpl; [exact IH|]. rewrite IH. reflexivity.
Qed.

Lemma py_min_from_ints (ys : list Z) :
  forall y, py_min_from (VInt y) (map VInt ys) = Ok (VInt (fold_left Z.min ys y)).
Proof.
  induction ys as [|y' ys IH]; intros y; simpl; [reflexivity|].
  destruct (y' <? y) eqn:E; rewrite IH; do 2 f_equal; f_equal; lia.
Qed.

Lemma py_max_from_ints (ys : list Z) :
  forall y, py_max_from (VInt y) (map VInt ys) = Ok (VInt (fold_left Z.max ys y)).
Proof.
  induction ys as [|y' ys IH]; intros y; simpl; [reflexivity|].
  destruct (y <? y') eqn:E; rewrite IH; do 2 f_equal; f_equal; lia.
Qed.

Lemma fold_min_bounds (ys : list Z) :
  forall y, fold_left Z.min ys y <= y
            /\ Forall (fun x => fold_left Z.min ys y <= x) ys.
Proof.
  induction ys as [|y' ys IH]; intros y; simpl; [split; [lia | constructor]|].
  destruct (IH (Z.min y y')) as [H1 H2].
  split; [lia|]. constructor; [lia | exact H2].
Qed.

Lemma fold_max_bounds (ys : list Z) :
  forall y, y <= fold_left Z.max ys y
            /\ Forall (fun x => x <= fold_left Z.max ys y) ys.
Proof.
  induction ys as [|y' ys IH]; intros y; simpl; [split; [lia | constructor]|].
  destruct (IH (Z.max y y')) as [H1 H2].
  split; [lia|]. constructor; [lia | exact H2].
Qed.

Lemma binary64_quotient_raises (a : Z) (b : positive) (e : exn) :
  binary64_quotient a b = Raise e -> e = OverflowError.
Proof.
  unfold binary64_quotient.
  destruct (Z.abs a =? 0); [discriminate|]. cbv zeta.
  match goal with
  | |- context [if ?c then Raise OverflowError else _] => destruct c
  end.
  - intros H. inversion H. reflexivity.
  - match goal with
    | |- context [if ?c then _ else _] => destruct c
    end; discriminate.
Qed.

(** X21: when every price and every year is missing, null or an [int],
    and at least one price is not 0, the statistics block raises only
    when the mean of the non-zero prices is too large for a float, and
    then [OverflowError]; otherwise it reports the float nearest to the
    sum of the non-zero prices divided by their number, and, when there
    is a non-zero year, a range whose two ends bound every non-zero
    year. *)
Theorem report_statistics_of_ints (all_listings : list dict) (w : world) :
  Forall (fun l => int_or_null (dict_lookup l "price") = true) all_listings ->
  Forall (fun l => int_or_null (dict_lookup l "year") = true) all_listings ->
  int_values "price" all_listings <> [] ->
  let prices := int_values "price" all_listings in
  let years := int_values "year" all_listings in
  match binary64_quotient (Zsum prices) (Pos.of_nat (List.length prices)) with
  | Raise e =>
      e = OverflowError
      /\ report_statistics all_listings w = (Raise OverflowError, w)
  | Ok avg =>
      exists w',
        report_statistics all_listings w = (Ok tt, w')
        /\ match years with
           | [] => trace w' = (trace w ++ [EvAveragePrice avg])%list
           | y :: ys =>
               exists lo hi,
                 trace w' = (trace w ++ [EvAveragePrice avg;
                                          EvYearRange (VInt lo) (VInt hi)])%list
                 /\ Forall (fun x => lo <= x <= hi) years
           end
  end.
Proof.
  intros Hp Hy Hne. cbv zeta.
  pose proof (sum_prices_ints Hp 0) as Hsum.
  pose proof (count_prices_ints Hp) as Hcount.
  pose proof (collect_years_ints Hy) as Hyears.
  remember (int_values "price" all_listings) as prices eqn:Eprices.
  remember (int_values "year" all_listings) as years eqn:Eyears.
  unfold report_statistics.
  destruct all_listings as [|l rest]; [simpl in Eprices; congruence|].
  unfold_monad. rewrite Hsum, Hcount, Hyears, Z.add_0_l.
  destruct prices as [|p0 ps]; [congruence|].
  cbn [List.length true_div].
  destruct (binary64_quotient (Zsum (p0 :: ps)) (Pos.of_nat (S (List.length ps))))
    as [avg|e] eqn:Hdiv.
  - destruct years as [|y ys]; cbn [map].
    + eexists. split; reflexivity.
    + rewrite py_min_from_ints, py_max_from_ints.
      eexists. split; [reflexivity|].
      exists (fold_left Z.min ys y), (fold_left Z.max ys y).
      split; [cbn; rewrite <- app_assoc; reflexivity|].
      destruct (fold_min_bounds ys y) as [Hm1 Hm2].
      destruct (fold_max_bounds ys y) as [HM1 HM2].
      constructor; [lia|].
      rewrite Forall_forall in *. intros x Hx.
      specialize (Hm2 x Hx). specialize (HM2 x Hx). lia.
  - pose proof (binary64_quotient_raises _ _ Hdiv) as He. subst e.
    split; reflexivity.
Qed.

Lemma report_statistics_of_ints_witness :
  exists w',
    report_statistics scenario_records world0 = (Ok tt, w')
    /\ exists lo hi,
         trace w' = (trace world0 ++ [EvAveragePrice (75000 # 1);
                                       EvYearRange (VInt lo) (VInt hi)])%list
         /\ Forall (fun x => lo <= x <= hi) [2010; 2005].
Proof.
  apply (@report_statistics_of_ints scenario_records world0).
  - repeat constructor.
  - repeat constructor.
  - discriminate.
Defined.

(** The driver ends its construction with the publisher of [main], or
    without one. *)
Lemma init_kafka_producer_cases (env : Env) (w : world) :
  fst (init_kafka_producer env w) = Ok None
  \/ fst (init_kafka_producer env w) = Ok (Some main_producer).
Proof.
  unfold init_kafka_producer, CarDataKafkaProducer_init, _connect, main_producer.
  simpl. unfold KafkaProducer_new. unfold_monad. simpl.
  destruct (kafka_connect env (n_connect w)) as [[]|]; simpl; auto.
  destruct (kafka_connect env (S (n_connect w))) as [[]|]; simpl; auto.
  destruct (kafka_connect env (S (S (n_connect w)))) as [[]|]; simpl; auto.
Qed.

Lemma search_cars_finds_nothing (env : Env) (kw : search_kwargs) (w : world) :
  (forall n args, api_search_car env n args = Ok []
                  \/ exists e, api_search_car env n args = Raise e) ->
  exists w',
    search_cars env kw w = (Ok [], w')
    /\ trace w' = (trace w ++ [EvSearch (search_args kw)])%list.
Proof.
  intros Hnothing.
  unfold search_cars, try_except, bind, search_car.
  destruct (Hnothing (n_api w) (search_args kw)) as [H | [e H]]; rewrite H;
    eexists; split; reflexivity.
Qed.

Lemma main_loop_finds_nothing (env : Env) (kp : option CarDataKafkaProducer)
    (configs : list (string * search_kwargs)) :
  (forall n args, api_search_car env n args = Ok []
                  \/ exists e, api_search_car env n args = Raise e) ->
  forall (all_listings : list dict) (w : world),
  exists w',
    main_loop env kp configs all_listings w = (Ok all_listings, w')
    /\ trace w' = (trace w ++ searches_and_sleeps configs)%list.
Proof.
  intros Hnothing.
  induction configs as [|[name kw] rest IH]; intros all_listings w.
  - exists w. simpl. rewrite app_nil_r. split; reflexivity.
  - destruct (search_cars_finds_nothing env kw w Hnothing) as (w1 & Hrun & Htr).
    destruct (IH all_listings (emit (EvSleep 2) w1)) as (w' & Hloop & Htr').
    exists w'. cbn [main_loop]. unfold bind at 1. rewrite Hrun.
    unfold_monad. cbv beta iota. rewrite Hloop. split; [reflexivity|].
    rewrite Htr'. simpl. rewrite Htr, <- !app_assoc. reflexivity.
Qed.

(** X22: when no search finds anything, because the marketplace answers
    with no ad or raises, [main] ends normally: after the connection
    attempts it runs its three searches, each followed by a sleep of 2,
    sends nothing, does not flush, reports no statistics, and closes the
    producer if it has one. *)
Theorem main_when_nothing_is_found (env : Env) (w : world) :
  (forall n args, api_search_car env n args = Ok []
                  \/ exists e, api_search_car env n args = Raise e) ->
  exists kp,
    fst (init_kafka_producer env w) = Ok kp
    /\ fst (main env w) = Ok tt
    /\ trace (snd (main env w))
       = (trace (snd (init_kafka_producer env w))
          ++ searches_and_sleeps search_configs
          ++ match kp with Some _ => [EvClose] | None => [] end)%list.
Proof.
  intros Hnothing.
  destruct (init_kafka_producer env w) as [r w1] eqn:Hinit.
  pose proof (init_kafka_producer_cases env w) as Hcases.
  rewrite Hinit in Hcases. cbn [fst snd] in Hcases |- *.
  assert (Hmain : forall kp, r = Ok kp ->
            exists w2,
              collect_listings env w = (Ok (kp, []), w2)
              /\ trace w2 = (trace w1 ++ searches_and_sleeps search_configs)%list).
  { intros kp Hr. subst r.
    destruct (main_loop_finds_nothing env kp search_configs Hnothing [] w1)
      as (w2 & Hloop & Htr).
    exists w2. unfold collect_listings. unfold bind at 1. rewrite Hinit.
    unfold bind, ret. rewrite Hloop. split; [reflexivity | exact Htr]. }
  destruct Hcases as [Hr | Hr].
  - exists None. destruct (Hmain None Hr) as (w2 & Hc & Htr).
    split; [exact Hr|].
    assert (Hm : main env w = (Ok tt, w2)).
    { unfold main. unfold bind at 1. rewrite Hc. reflexivity. }
    rewrite Hm. cbn [fst snd]. rewrite app_nil_r.
    split; [reflexivity | exact Htr].
  - exists (Some main_producer). destruct (Hmain _ Hr) as (w2 & Hc & Htr).
    split; [exact Hr|].
    assert (Hm : main env w = (Ok tt, emit EvClose w2)).
    { unfold main. unfold bind at 1. rewrite Hc. reflexivity. }
    rewrite Hm. cbn [fst snd].
    split; [reflexivity|]. simpl. rewrite Htr, <- app_assoc. reflexivity.
Qed.

Lemma main_when_nothing_is_found_witness :
  fst (main flaky_env world0) = Ok tt
  /\ trace (snd (main flaky_env world0))
     = ([EvConnect ["localhost:9092"]; EvSleep 5; EvConnect ["localhost:9092"]]
        ++ searches_and_sleeps search_configs ++ [EvClose])%list.
Proof.
  destruct (@main_when_nothing_is_found flaky_env world0) as (kp & Hkp & Hm & Htr).
  - intros n args. left. reflexivity.
  - split; [exact Hm|]. inversion Hkp. subst kp. exact Htr.
Defined.

Lemma sent_values_app (a b : list event) :
  sent_values (a ++ b) = (sent_values a ++ sent_values b)%list.
Proof.
  unfold sent_values. apply flat_map_app.
Qed.

Lemma sent_values_of_batch (evs : list event) (listings : list dict) :
  map sent_value evs = map Some listings -> sent_values evs = listings.
Proof.
  revert listings. induction evs as [|e evs IH]; intros [|l ls] H;
    simpl in H; try discriminate; [reflexivity|].
  inversion H as [[He Hrest]]. unfold sent_values. simpl. rewrite He. simpl.
  f_equal. apply IH. exact Hrest.
Qed.

Lemma Forall2_normalized_publishable (env : Env) (ads : list RawAd) (ls : list dict) :
  Forall2 (normalized_from env) ads ls ->
  forallb ad_serializable ads = true ->
  forallb publishable ls = true.
Proof.
  induction 1 as [|ad d ads ls Hd _ IH]; intros Hser; [reflexivity|].
  simpl in Hser |- *. apply andb_prop in Hser. destruct Hser as [Had Hads].
  destruct Hd as (w0 & Hd).
  rewrite (proj1 (@parsed_record_publishable env ad w0 (tick w0) d (or_introl Hd) Had)).
  apply IH. exact Hads.
Qed.

Lemma forallb_firstn {A} (f : A -> bool) (n : nat) (l : list A) :
  forallb f l = true -> forallb f (firstn n l) = true.
Proof.
  revert n. induction l as [|x l IH]; intros [|n] H; simpl; try reflexivity.
  simpl in H. apply andb_prop in H. destruct H as [Hx Hl].
  rewrite Hx. apply IH. exact Hl.
Qed.

Lemma forallb_filter {A} (f g : A -> bool) (l : list A) :
  forallb f l = true -> forallb f (filter g l) = true.
Proof.
  induction l as [|x l IH]; intros H; simpl; [reflexivity|].
  simpl in H. apply andb_prop in H. destruct H as [Hx Hl].
  destruct (g x); simpl; [rewrite Hx|]; apply IH; exact Hl.
Qed.

Lemma search_cars_publishable (env : Env) (kw : search_kwargs) (w : world) :
  ads_serializable env ->
  exists ls w',
    search_cars env kw w = (Ok ls, w')
    /\ trace w' = (trace w ++ [EvSearch (search_args kw)])%list
    /\ forallb publishable ls = true.
Proof.
  intros Hser.
  destruct (api_search_car env (n_api w) (search_args kw)) as [ads|e] eqn:Hapi.
  - destruct (search_cars_spec env kw w Hapi) as (ls & w' & Hrun & Htr & Hall & _).
    exists ls, w'. split; [exact Hrun|]. split; [exact Htr|].
    apply (Forall2_normalized_publishable Hall).
    apply forallb_filter, forallb_firstn. exact (Hser _ _ _ Hapi).
  - exists [].
    unfold search_cars, try_except, bind, search_car, isinstance_Exception, ret.
    rewrite Hapi. eexists. repeat split; reflexivity.
Qed.

Lemma main_loop_publishes (env : Env) (kp : CarDataKafkaProducer)
    (p : KafkaProducer) (configs : list (string * search_kwargs)) :
  producer kp = Some p ->
  kafka_only env ->
  ads_serializable env ->
  forall (all_listings : list dict) (w : world),
  exists all_listings' w' evs,
    main_loop env (Some kp) configs all_listings w = (Ok all_listings', w')
    /\ trace w' = (trace w ++ evs)%list
    /\ all_listings' = (all_listings ++ sent_values evs)%list
    /\ filter is_search_event evs
       = map (fun c => EvSearch (search_args (snd c))) configs.
Proof.
  intros Hp Hk Hser.
  induction configs as [|[name kw] rest IH]; intros all_listings w.
  - exists all_listings, w, []. simpl. rewrite !app_nil_r. repeat split; reflexivity.
  - destruct (@search_cars_publishable env kw w Hser) as (ls & w1 & Hrun & Htr & Hpub).
    cbn [main_loop]. unfold bind at 1. rewrite Hrun.
    destruct ls as [|l ls].
    + destruct (IH all_listings (emit (EvSleep 2) w1))
        as (all' & w' & evs & Hloop & Htr' & Hall & Hs).
      exists all', w', (EvSearch (search_args kw) :: EvSleep 2 :: evs).
      unfold_monad. cbv beta iota. rewrite Hloop. split; [reflexivity|].
      split; [|split].
      * rewrite Htr'. simpl. rewrite Htr, <- !app_assoc. reflexivity.
      * exact Hall.
      * simpl. rewrite Hs. reflexivity.
    + destruct (@send_batch_publishable env kp p (l :: ls) w1 Hp Hk Hpub)
        as (sends & w2 & Hbatch & Htr2 & Hvals).
      destruct (IH (all_listings ++ l :: ls)%list (emit (EvSleep 2) w2))
        as (all' & w' & evs & Hloop & Htr' & Hall & Hs).
      exists all', w',
        (EvSearch (search_args kw) :: sends ++ EvFlush :: EvSleep 2 :: evs)%list.
      unfold bind at 1. unfold bind at 1. unfold bind at 1. rewrite Hbatch.
      unfold_monad. cbv beta iota. rewrite Hloop. split; [reflexivity|].
      split; [|split].
      * rewrite Htr'. simpl. rewrite Htr2, Htr, <- !app_assoc. reflexivity.
      * rewrite Hall, <- app_assoc. f_equal.
        change (EvSearch (search_args kw) :: sends ++ EvFlush :: EvSleep 2 :: evs)%list
          with ([EvSearch (search_args kw)] ++ sends ++ [EvFlush; EvSleep 2] ++ evs)%list.
        rewrite !sent_values_app, (@sent_values_of_batch sends (l :: ls) Hvals).
        reflexivity.
      * simpl. rewrite filter_app. simpl. rewrite Hs.
        assert (Hnone : filter is_search_event sends = []).
        { clear - Hvals. revert Hvals. generalize (l :: ls).
          induction sends as [|e sends IHs]; intros [|x xs] H;
            simpl in H; try discriminate; [reflexivity|].
          inversion H as [[He Hrest]].
          destruct e; simpl in He; try discriminate. simpl. eapply IHs. exact Hrest. }
        rewrite Hnone. reflexivity.
Qed.

(** X23: with a producer, a broker that fails with [KafkaError] only and
    a marketplace whose ads hold values [json.dumps] accepts, the loop of
    [main] raises nothing and runs its three searches, and the listings
    it collects are exactly the values it handed to the broker, each once
    and in the same order. *)
Theorem main_publishes_what_it_collects (env : Env) (w : world) :
  fst (init_kafka_producer env w) = Ok (Some main_producer) ->
  kafka_only env ->
  ads_serializable env ->
  exists all_listings w' evs,
    collect_listings env w = (Ok (Some main_producer, all_listings), w')
    /\ trace w' = (trace (snd (init_kafka_producer env w)) ++ evs)%list
    /\ all_listings = sent_values evs
    /\ filter is_search_event evs
       = map (fun c => EvSearch (search_args (snd c))) search_configs.
Proof.
  intros Hinit Hk Hser.
  destruct (init_kafka_producer env w) as [r w1] eqn:Hi.
  cbn [fst snd] in Hinit |- *. subst r.
  destruct (@main_loop_publishes env main_producer
              {| kp_bootstrap_servers := ["localhost:9092"] |}
              search_configs eq_refl Hk Hser [] w1)
    as (all' & w' & evs & Hloop & Htr & Hall & Hs).
  exists all', w', evs.
  unfold collect_listings. unfold bind at 1. rewrite Hi.
  unfold bind, ret. rewrite Hloop.
  split; [reflexivity|]. split; [exact Htr|]. split; [exact Hall | exact Hs].
Qed.

Lemma volvo_env_ads_serializable : ads_serializable volvo_env.
Proof.
  intros n args ads H. inversion H. reflexivity.
Defined.

Lemma volvo_env_kafka_only : kafka_only volvo_env.
Proof.
  intros n m e H. discriminate H.
Defined.

Lemma main_publishes_what_it_collects_witness :
  exists all_listings w' evs,
    collect_listings volvo_env world0 = (Ok (Some main_producer, all_listings), w')
    /\ trace w' = (trace (snd (init_kafka_producer volvo_env world0)) ++ evs)%list
    /\ all_listings = sent_values evs
    /\ filter is_search_event evs
       = map (fun c => EvSearch (search_args (snd c))) search_configs.
Proof.
  apply (@main_publishes_what_it_collects volvo_env world0).
  - reflexivity.
  - apply volvo_env_kafka_only.
  - apply volvo_env_ads_serializable.
Defined.

(** X24: a truthy price that is not a number makes the statistics block
    raise [TypeError] before it reports anything: the prices before it
    may be missing, null or [int]s, and what comes after it is not looked
    at. *)
Theorem report_statistics_price_not_a_number
    (before after : list dict) (l : dict) (v : pyval) (w : world) :
  Forall (fun l => int_or_null (dict_lookup l "price") = true) before ->
  dict_lookup l "price" = Some v ->
  py_truthy v = true ->
  as_int v = None ->
  report_statistics (before ++ l :: after) w = (Raise TypeError, w).
Proof.
  intros Hbefore Hl Ht Hn.
  assert (Hsum : forall acc, sum_prices (before ++ l :: after) acc = Raise TypeError).
  { induction Hbefore as [|b rest Hb _ IH]; intros acc; simpl.
    - unfold has_price, dict_get, dict_getitem, py_add. rewrite Hl, Ht, Hn. reflexivity.
    - unfold has_price, dict_get, dict_getitem.
      destruct (dict_lookup b "price") as [[| b0 | z | s0 | l0 | d | c]|];
        simpl in Hb |- *; try discriminate; try apply IH.
      destruct (z =? 0); simpl; apply IH. }
  unfold report_statistics.
  destruct (before ++ l :: after)%list as [|x xs] eqn:E.
  - destruct before; discriminate.
  - unfold_monad. rewrite Hsum. reflexivity.
Qed.

Lemma report_statistics_price_not_a_number_witness :
  report_statistics
    [ [("price", VInt 45000)]; [("price", VStr "12 000 kr")]; [("price", VInt 1)] ]
    world0
  = (Raise TypeError, world0).
Proof.
  apply (@report_statistics_price_not_a_number
           [ [("price", VInt 45000)] ] [ [("price", VInt 1)] ]
           [("price", VStr "12 000 kr")] (VStr "12 000 kr") world0).
  - repeat constructor.
  - reflexivity.
  - reflexivity.
  - reflexivity.
Defined.

(** * The images of every ad *)

Lemma extract_image_first (ad : RawAd) (img : pyval) :
  _extract_image ad = Ok img -> img = first_image_url ad.
Proof.
  unfold _extract_image, first_image_url, image_entries.
  destruct (images ad) as [v|]; simpl.
  - destruct v as [| b | z | s | [|x l] | [|kv l] | c]; simpl;
      try (intros H; inversion H; reflexivity); try discriminate.
    + destruct b; simpl; intros H; inversion H; reflexivity.
    + destruct (z =? 0); simpl; intros H; inversion H; reflexivity.
    + destruct s; simpl; intros H; inversion H; reflexivity.
    + destruct x; simpl; try discriminate. intros H. inversion H. reflexivity.
  - intros H. inversion H. reflexivity.
Qed.

Lemma image_urls_ok (entries us : list pyval) :
  image_urls entries = Ok us ->
  us = filter py_truthy (map entry_url entries)
  /\ forallb is_dict entries = true.
Proof.
  revert us. induction entries as [|x rest IH]; intros us; simpl.
  - intros H. inversion H. split; reflexivity.
  - destruct x; simpl; try discriminate.
    fold (image_url_of d).
    destruct (py_truthy (image_url_of d)).
    + destruct (image_urls rest) as [us'|]; [|discriminate].
      intros H. inversion H. destruct (IH us' eq_refl) as [Hus Hall].
      split; [f_equal; exact Hus | exact Hall].
    + intros H. apply IH. exact H.
Qed.

Lemma extract_all_images_all (ad : RawAd) (imgs : pyval) :
  _extract_all_images ad = Ok imgs ->
  imgs = VList (nonempty_image_urls ad)
  /\ forallb is_dict (image_entries ad) = true.
Proof.
  unfold _extract_all_images, nonempty_image_urls, image_entries.
  destruct (images ad) as [v|]; simpl.
  - destruct v as [| b | z | s | l | [|kv l] | c]; simpl;
      try (intros H; inversion H; split; reflexivity); try discriminate.
    + destruct b; simpl; [discriminate|]. intros H; inversion H; split; reflexivity.
    + destruct (z =? 0); simpl; [|discriminate].
      intros H; inversion H; split; reflexivity.
    + destruct s; simpl; [|discriminate].
      intros H; inversion H; split; reflexivity.
    + destruct l as [|x l]; [intros H; inversion H; split; reflexivity|].
      cbn [py_truthy andb py_iter].
      destruct (image_urls (x :: l)) as [us|] eqn:E; [|discriminate].
      intros H. inversion H. destruct (image_urls_ok _ E) as [Hus Hall].
      split; [f_equal; exact Hus | exact Hall].
  - intros H. inversion H. split; reflexivity.
Qed.

Lemma parse_ad_details_broken_entry (env : Env) (ad : RawAd) (w : world) :
  forallb is_dict (image_entries ad) = false ->
  _parse_ad_details env ad w = (Ok None, w).
Proof.
  intros Hbroken.
  assert (Hraise : exists e, _extract_all_images ad = Raise e).
  { destruct (_extract_all_images ad) as [imgs|e] eqn:E; [|exists e; reflexivity].
    destruct (extract_all_images_all _ E) as [_ Hall]. congruence. }
  destruct Hraise as [e He].
  unfold _parse_ad_details, parse_ad_details_body. unfold_monad.
  destruct (ad_id ad) as [id|]; simpl; [|reflexivity].
  destruct (price_value ad) as [p|]; simpl; [|reflexivity].
  destruct (_extract_location ad) as [loc|]; simpl; [|reflexivity].
  rewrite He. reflexivity.
Qed.

(** C8, as the code has it: for every raw ad, a record of the summary
    path holds one image value, the first image's URL or null when the ad
    has no images, and no list of images; a record of the detail path
    holds every non-empty image URL, in source order and with its
    duplicates, the empty ones filtered out, and every image entry of its
    ad is a dictionary; of an ad with an image entry that is not a
    dictionary the detail path makes no record. *)
Theorem summary_first_image_detail_all_images
    (env : Env) (ad : RawAd) (w w' : world) (d : dict) :
  (_parse_ad env ad w = (Ok (Some d), w') ->
   dict_lookup d "image_url" = Some (first_image_url ad)
   /\ dict_lookup d "images" = None)
  /\ (_parse_ad_details env ad w = (Ok (Some d), w') ->
      dict_lookup d "images" = Some (VList (nonempty_image_urls ad))
      /\ dict_lookup d "image_url" = None
      /\ forallb is_dict (image_entries ad) = true)
  /\ (forallb is_dict (image_entries ad) = false ->
      _parse_ad_details env ad w = (Ok None, w)).
Proof.
  split; [|split].
  - intros Hd.
    destruct (parse_ad_record env ad w Hd) as (img & Hi & Hl & Hn).
    rewrite (extract_image_first _ Hi) in Hl. split; assumption.
  - intros Hd.
    destruct (parse_ad_details_record env ad w Hd) as (imgs & Hi & Hl & Hn).
    destruct (extract_all_images_all _ Hi) as [Himgs Hall].
    rewrite Himgs in Hl. split; [exact Hl|]. split; assumption.
  - apply parse_ad_details_broken_entry.
Qed.

Lemma summary_first_image_detail_all_images_witness :
  dict_lookup volvo_summary "image_url" = Some (VStr "https://img/a.jpg")
  /\ dict_lookup volvo_details "images"
     = Some (VList [VStr "https://img/a.jpg"; VStr "https://img/a.jpg";
                    VStr "https://img/b.jpg"])
  /\ _parse_ad_details volvo_env half_broken_ad world0 = (Ok None, world0).
Proof.
  split; [|split].
  - exact (proj1 (proj1 (@summary_first_image_detail_all_images
                           volvo_env volvo_ad world0 (tick world0) volvo_summary)
                    eq_refl)).
  - exact (proj1 (proj1 (proj2 (@summary_first_image_detail_all_images
                                  volvo_env volvo_ad world0 (tick world0)
                                  volvo_details))
                    eq_refl)).
  - exact (proj2 (proj2 (@summary_first_image_detail_all_images
                           volvo_env half_broken_ad world0 world0 []))
             eq_refl).
Defined.

(** C8 as stated fails: the first image entry of this ad has a URL and
    the second entry is [None]; the summary path makes a record with that
    URL, and the detail path makes no record at all, so that it holds
    none of the ad's image URLs. *)
Lemma detail_all_images_counterexample :
  image_entries half_broken_ad
  = [VDict [("url", VStr "https://img/a.jpg")]; VNone]
  /\ (exists d,
        fst (_parse_ad volvo_env half_broken_ad world0) = Ok (Some d)
        /\ dict_lookup d "image_url" = Some (VStr "https://img/a.jpg"))
  /\ fst (_parse_ad_details volvo_env half_broken_ad world0) = Ok None.
Proof.
  split; [reflexivity|]. split; [|reflexivity].
  eexists. split; reflexivity.
Qed.
